(** * Resume text extraction of the ATS job-application page

    A shallow embedding of the text-extraction pipeline of
    [src/pages/JobDetails.tsx]: the sanitizer, the plain-text reader, the
    OCR adapter, the PDF and Word extractors, the AI enhancement client,
    the upload handler [handleFileChange] and the row that [handleSubmit]
    inserts into the [applications] table.

    JavaScript strings are sequences of UTF-16 code units; they are
    modelled as [list Z].  The regular expressions of the source carry no
    [u] flag, so they match code unit by code unit. *)

From Stdlib Require Import ZArith List Bool Lia String Ascii.
Import ListNotations.
Open Scope Z_scope.

(** ** JavaScript strings *)

Module Js.

Definition jsstring := list Z.

(** An ASCII literal of the source as a list of code units. *)
Definition lit (s : string) : jsstring :=
  map (fun a => Z.of_N (N_of_ascii a)) (list_ascii_of_string s).

Definition string_eqb (a b : jsstring) : bool :=
  if list_eq_dec Z.eq_dec a b then true else false.

(** [s.length] *)
Definition len (s : jsstring) : Z := Z.of_nat (List.length s).

(** Truthiness of a string: only the empty string is falsy. *)
Definition truthy (s : jsstring) : bool :=
  match s with [] => false | _ :: _ => true end.

(** [a || b] on strings. *)
Definition or_else (a b : jsstring) : jsstring :=
  if truthy a then a else b.

Fixpoint startsWith (s p : jsstring) : bool :=
  match p, s with
  | [], _ => true
  | _ :: _, [] => false
  | x :: p', y :: s' => (x =? y) && startsWith s' p'
  end.

Definition endsWith (s p : jsstring) : bool :=
  startsWith (rev s) (rev p).

(** [String.prototype.toLowerCase], on the ASCII letters.  The only code
    units whose lower-case form is one of the ASCII characters tested by
    the source ([.pdf], [.docx], [.doc]) are those letters and their
    capitals, so the suffix tests agree with the full Unicode mapping. *)
Definition lower_unit (c : Z) : Z :=
  if (65 <=? c) && (c <=? 90) then c + 32 else c.

Definition toLowerCase (s : jsstring) : jsstring := map lower_unit s.

(** The class [[\x00-\x1F\x7F-\x9F]]. *)
Definition is_control (c : Z) : bool :=
  ((0 <=? c) && (c <=? 31)) || ((127 <=? c) && (c <=? 159)).

(** The pattern [\t]. *)
Definition is_tab (c : Z) : bool := c =? 9.

(** The class [\s]: the WhiteSpace and LineTerminator code points
    U+0009 to U+000D, U+0020, U+00A0, U+1680, U+2000 to U+200A, U+2028,
    U+2029, U+202F, U+205F, U+3000 and U+FEFF. *)
Definition is_space (c : Z) : bool :=
  ((9 <=? c) && (c <=? 13)) || (c =? 32) || (c =? 160) || (c =? 5760)
  || ((8192 <=? c) && (c <=? 8202)) || (c =? 8232) || (c =? 8233)
  || (c =? 8239) || (c =? 8287) || (c =? 12288) || (c =? 65279).

Definition SPACE : Z := 32.

(** [s.replace(/[class]/g, rep)] for a one-character pattern. *)
Definition replace_each (p : Z -> bool) (rep : jsstring) (s : jsstring)
  : jsstring :=
  flat_map (fun c => if p c then rep else [c]) s.

(** [s.replace(/[class]+/g, rep)]: every maximal run of matching code
    units is replaced by one copy of [rep].  [in_run] tells that the
    previous code unit belonged to a run already replaced. *)
Fixpoint replace_runs_from (p : Z -> bool) (rep : jsstring)
    (in_run : bool) (s : jsstring) : jsstring :=
  match s with
  | [] => []
  | c :: r =>
      if p c then
        if in_run then replace_runs_from p rep true r
        else rep ++ replace_runs_from p rep true r
      else c :: replace_runs_from p rep false r
  end.

Definition replace_runs (p : Z -> bool) (rep : jsstring) (s : jsstring)
  : jsstring :=
  replace_runs_from p rep false s.

(** [s.substring(0, n)] for [n >= 0]. *)
Definition substring0 (n : Z) (s : jsstring) : jsstring :=
  firstn (Z.to_nat n) s.

Fixpoint trimStart (s : jsstring) : jsstring :=
  match s with
  | [] => []
  | c :: r => if is_space c then trimStart r else s
  end.

(** [s.trim()] *)
Definition trim (s : jsstring) : jsstring :=
  rev (trimStart (rev (trimStart s))).

(** Decimal rendering of an integer-valued number, as template literals
    and [String(n)] give it. *)
Fixpoint digits_of_uint (d : Decimal.uint) : jsstring :=
  match d with
  | Decimal.Nil => []
  | Decimal.D0 r => 48 :: digits_of_uint r
  | Decimal.D1 r => 49 :: digits_of_uint r
  | Decimal.D2 r => 50 :: digits_of_uint r
  | Decimal.D3 r => 51 :: digits_of_uint r
  | Decimal.D4 r => 52 :: digits_of_uint r
  | Decimal.D5 r => 53 :: digits_of_uint r
  | Decimal.D6 r => 54 :: digits_of_uint r
  | Decimal.D7 r => 55 :: digits_of_uint r
  | Decimal.D8 r => 56 :: digits_of_uint r
  | Decimal.D9 r => 57 :: digits_of_uint r
  end.

Definition number_to_string (n : Z) : jsstring :=
  match n with
  | Z0 => lit "0"
  | Zpos p => digits_of_uint (Pos.to_uint p)
  | Zneg p => lit "-" ++ digits_of_uint (Pos.to_uint p)
  end.

(** [Math.round(n / 1024)] for an integer [n]: the quotient is exact in
    binary floating point, and [Math.round] rounds halves upwards. *)
Definition round_div_1024 (n : Z) : Z := (n + 512) / 1024.

(** [t] occurs in [s] as a contiguous substring. *)
Definition contains (s t : jsstring) : Prop :=
  exists pre post, s = pre ++ t ++ post.

End Js.

Import Js.

(** ** The sanitizer *)

(** [sanitizeText], lines 162-177. *)
Definition sanitizeText (text : jsstring) : jsstring :=
  if negb (truthy text) then []
  else
    substring0 100000
      (replace_runs is_space [SPACE]
        (replace_each is_tab [SPACE]
          (replace_each is_control [] text))).

(** ** Files, exceptions and the browser's services *)

(** The fields of a [File] that the page reads. *)
Record File := mkFile {
  name : jsstring;
  type : jsstring;
  size : Z;
  lastModified : Z
}.

(** A thrown value: an [Error] with its [message], or any other value
    (the [ProgressEvent] of [reader.onerror], whose [message] is
    undefined). *)
Inductive JsError :=
| Error (message : jsstring)
| Thrown.

Inductive Result (A : Type) :=
| Ok (a : A)
| Throw (e : JsError).
Arguments Ok {A} a.
Arguments Throw {A} e.

(** The value of [data.response] in [enhanceOcrResultWithAi].  For a value
    that is not a string, [guard] is what
    [enhancedText && enhancedText.length > text.length / 2] evaluates to
    under JavaScript's coercions. *)
Inductive Completion :=
| CompletionString (s : jsstring)
| CompletionOther (guard : bool).

(** The body of an HTTP response as [response.json()] sees it. *)
Inductive JsonBody :=
| BodyUnparseable (e : JsError)
| BodyNull
| BodyData (response : Completion).

Inductive FetchReply :=
| FetchRejected (e : JsError)
| FetchResponse (ok : bool) (body : JsonBody).

(** What the browser, Tesseract, mammoth and the model endpoint answer.
    The first argument is the number of service calls made before this
    one, so that a service may answer differently each time it is called. *)
Record Env := mkEnv {
  readAsText : nat -> File -> Result jsstring;
  readAsArrayBuffer : nat -> File -> Result unit;
  mammoth_extractRawText : nat -> File -> Result jsstring;
  createWorker : nat -> Result unit;
  loadLanguage : nat -> jsstring -> Result unit;
  initialize : nat -> jsstring -> Result unit;
  recognize : nat -> File -> Result jsstring;
  terminate : nat -> Result unit;
  fetch_generate : nat -> jsstring -> FetchReply;
  toLocaleString : Z -> jsstring
}.

(** The service calls a run has made, oldest first. *)
Inductive Event :=
| EReadAsText (f : File)
| EReadAsArrayBuffer (f : File)
| EMammoth (f : File)
| ECreateWorker
| ELoadLanguage (lang : jsstring)
| EInitialize (lang : jsstring)
| ERecognize (f : File)
| ETerminate
| EFetch (text : jsstring).

(** The component's [useState] cells that the pipeline touches. *)
Record State := mkState {
  resumeFile : option File;
  coverLetter : jsstring;
  resumeText : jsstring;
  isPdfFile : bool;
  extractionMethod : jsstring;
  ocrProgress : Z;
  isOcrProcessing : bool
}.

Record World := mkWorld {
  state : State;
  trace : list Event
}.

Definition initial_state : State :=
  mkState None [] [] false (lit "none") 0 false.

Definition initial_world : World := mkWorld initial_state [].

(** ** A state and exception monad for the async functions *)

Definition M (A : Type) : Type := World -> Result A * World.

Definition ret {A} (a : A) : M A := fun w => (Ok a, w).

Definition throw {A} (e : JsError) : M A := fun w => (Throw e, w).

Definition bind {A B} (m : M A) (k : A -> M B) : M B :=
  fun w =>
    match m w with
    | (Ok a, w') => k a w'
    | (Throw e, w') => (Throw e, w')
    end.

Notation "x <- m ;; k" := (bind m (fun x => k))
  (at level 61, m at next level, right associativity).
Notation "m ;; k" := (bind m (fun _ => k))
  (at level 61, right associativity).

(** [try { m } catch (e) { h e }] *)
Definition try_catch {A} (m : M A) (h : JsError -> M A) : M A :=
  fun w =>
    match m w with
    | (Ok a, w') => (Ok a, w')
    | (Throw e, w') => h e w'
    end.

(** [try { m } finally { f }] *)
Definition try_finally {A} (m : M A) (f : M unit) : M A :=
  fun w =>
    match m w with
    | (r, w') =>
        match f w' with
        | (Ok _, w'') => (r, w'')
        | (Throw e, w'') => (Throw e, w'')
        end
    end.

(** Runs [m] and hands its outcome back as a value. *)
Definition attempt {A} (m : M A) : M (Result A) :=
  fun w => match m w with (r, w') => (Ok r, w') end.

Definition modify (f : State -> State) : M unit :=
  fun w => (Ok tt, mkWorld (f (state w)) (trace w)).

Definition setResumeFile (v : option File) : M unit :=
  modify (fun s => mkState v (coverLetter s) (resumeText s) (isPdfFile s)
                     (extractionMethod s) (ocrProgress s) (isOcrProcessing s)).

Definition setCoverLetter (v : jsstring) : M unit :=
  modify (fun s => mkState (resumeFile s) v (resumeText s) (isPdfFile s)
                     (extractionMethod s) (ocrProgress s) (isOcrProcessing s)).

Definition setResumeText (v : jsstring) : M unit :=
  modify (fun s => mkState (resumeFile s) (coverLetter s) v (isPdfFile s)
                     (extractionMethod s) (ocrProgress s) (isOcrProcessing s)).

Definition setIsPdfFile (v : bool) : M unit :=
  modify (fun s => mkState (resumeFile s) (coverLetter s) (resumeText s) v
                     (extractionMethod s) (ocrProgress s) (isOcrProcessing s)).

Definition setExtractionMethod (v : jsstring) : M unit :=
  modify (fun s => mkState (resumeFile s) (coverLetter s) (resumeText s)
                     (isPdfFile s) v (ocrProgress s) (isOcrProcessing s)).

Definition setOcrProgress (v : Z) : M unit :=
  modify (fun s => mkState (resumeFile s) (coverLetter s) (resumeText s)
                     (isPdfFile s) (extractionMethod s) v (isOcrProcessing s)).

Definition setIsOcrProcessing (v : bool) : M unit :=
  modify (fun s => mkState (resumeFile s) (coverLetter s) (resumeText s)
                     (isPdfFile s) (extractionMethod s) (ocrProgress s) v).

(** A service call: its answer is the environment's, and the call is
    appended to the trace. *)
Definition call {A} (ev : Event) (answer : nat -> Result A) : M A :=
  fun w =>
    (answer (List.length (trace w)), mkWorld (state w) (trace w ++ [ev])).

(** ** The extraction pipeline *)

Section Pipeline.

Variable env : Env.

(** [new Error("PDF_BINARY_DATA")] *)
Definition PDF_BINARY_DATA : JsError := Error (lit "PDF_BINARY_DATA").

(** [error.message === m] *)
Definition message_is (error : JsError) (m : jsstring) : bool :=
  match error with
  | Error msg => string_eqb msg m
  | Thrown => false
  end.

(** [extractTextFromTextFile], lines 180-212. *)
Definition extractTextFromTextFile (file : File) : M jsstring :=
  text <- call (EReadAsText file) (fun n => readAsText env n file) ;;
  if startsWith text (lit "%PDF-") then throw PDF_BINARY_DATA
  else ret (sanitizeText text).

(** [enhanceOcrResultWithAi], lines 449-504.  Reading [response] of a
    [null] body, and calling [sanitizeText] on a completion that is not a
    string (it has no [replace] method), throw a [TypeError] inside the
    [try] block. *)
Definition enhanceOcrResultWithAi (text : jsstring) : M jsstring :=
  try_catch
    (reply <- call (EFetch text) (fun n => Ok (fetch_generate env n text)) ;;
     match reply with
     | FetchRejected e => throw e
     | FetchResponse ok body =>
         if ok then
           match body with
           | BodyUnparseable e => throw e
           | BodyNull => throw (Error (lit "TypeError"))
           | BodyData (CompletionString enhancedText) =>
               if truthy enhancedText
                  && (2 * len enhancedText >? len text)
               then ret (sanitizeText enhancedText)
               else ret (sanitizeText text)
           | BodyData (CompletionOther guard) =>
               if guard then throw (Error (lit "TypeError"))
               else ret (sanitizeText text)
           end
         else ret (sanitizeText text)
     end)
    (fun _ => ret (sanitizeText text)).

(** Lines 232-260 of [extractTextFromPdfWithOcr]: what runs once
    [Tesseract.createWorker()] has returned.  The interval timer that
    shows a random percentage while recognition runs is not modelled. *)
Definition recognizeWithWorker (file : File) : M jsstring :=
  call (ELoadLanguage (lit "eng")) (fun n => loadLanguage env n (lit "eng")) ;;
  call (EInitialize (lit "eng")) (fun n => initialize env n (lit "eng")) ;;
  text <- call (ERecognize file) (fun n => recognize env n file) ;;
  setOcrProgress 100 ;;
  enhanceOcrResultWithAi text.

(** The [finally] block when [worker] is set, lines 267-274. *)
Definition terminateWorker : M unit :=
  try_catch (call ETerminate (terminate env)) (fun _ => ret tt).

(** [extractTextFromPdfWithOcr], lines 215-276.  When [createWorker]
    throws, [worker] is still [null] and the [finally] block only clears
    the processing flag. *)
Definition extractTextFromPdfWithOcr (file : File) : M jsstring :=
  setIsOcrProcessing true ;;
  setOcrProgress 0 ;;
  worker <- attempt (call ECreateWorker (createWorker env)) ;;
  match worker with
  | Throw e => setIsOcrProcessing false ;; throw e
  | Ok _ =>
      try_finally (recognizeWithWorker file)
        (terminateWorker ;; setIsOcrProcessing false)
  end.

(** [extractTextFromPdf], lines 279-314. *)
Definition extractTextFromPdf (file : File) : M jsstring :=
  try_catch
    (try_catch
       (textResult <- extractTextFromTextFile file ;;
        if truthy textResult && (len (trim textResult) >? 100)
        then ret textResult
        else extractTextFromPdfWithOcr file)
       (fun error =>
          if message_is error (lit "PDF_BINARY_DATA")
          then extractTextFromPdfWithOcr file
          else extractTextFromPdfWithOcr file))
    (fun _ => extractTextFromPdfWithOcr file).

(** [extractTextFromWordDocument], lines 317-376.  The dynamic import of
    mammoth and [extractRawText] are one service call, answering
    [result.value]. *)
Definition extractTextFromWordDocument (file : File) : M jsstring :=
  setIsOcrProcessing true ;;
  setOcrProgress 10 ;;
  try_finally
    (call (EReadAsArrayBuffer file) (fun n => readAsArrayBuffer env n file) ;;
     setOcrProgress 30 ;;
     text <- call (EMammoth file) (fun n => mammoth_extractRawText env n file) ;;
     setOcrProgress 80 ;;
     finalText <-
       (if truthy text && (len text >? 100)
        then try_catch (enhanceOcrResultWithAi text) (fun _ => ret text)
        else ret text) ;;
     setOcrProgress 100 ;;
     ret (sanitizeText finalText))
    (setIsOcrProcessing false).

(** Lines 389-398 of [handleFileChange]. *)
Definition isPdf (file : File) : bool :=
  string_eqb (type file) (lit "application/pdf")
  || endsWith (toLowerCase (name file)) (lit ".pdf").

Definition isWordDoc (file : File) : bool :=
  string_eqb (type file)
    (lit "application/vnd.openxmlformats-officedocument.wordprocessingml.document")
  || string_eqb (type file) (lit "application/msword")
  || endsWith (toLowerCase (name file)) (lit ".docx")
  || endsWith (toLowerCase (name file)) (lit ".doc").

(** The [if] chain of lines 408-422: the method tag is set, then the
    extractor chosen for the declared type runs. *)
Definition extractByType (file : File) : M jsstring :=
  if isPdf file then
    setExtractionMethod (lit "pdf_extraction") ;;
    extractTextFromPdf file
  else if isWordDoc file then
    setExtractionMethod (lit "word_document") ;;
    extractTextFromWordDocument file
  else if string_eqb (type file) (lit "text/plain")
          || endsWith (name file) (lit ".txt") then
    setExtractionMethod (lit "text_file") ;;
    extractTextFromTextFile file
  else
    setExtractionMethod (lit "unknown_file") ;;
    extractTextFromTextFile file.

Definition LF : jsstring := [10].

(** The template literal of lines 433-440. *)
Definition fallbackText (file : File) : jsstring :=
  lit "Could not extract text from " ++ name file ++ lit " ("
  ++ or_else (type file) (lit "unknown type") ++ lit ")" ++ LF
  ++ lit "        " ++ LF
  ++ lit "File size: " ++ number_to_string (round_div_1024 (size file))
  ++ lit " KB" ++ LF
  ++ lit "Last modified: " ++ toLocaleString env (lastModified file) ++ LF
  ++ LF
  ++ lit "[The file content could not be automatically extracted. Please try a different file format (like .txt) or ensure the file is not corrupted or password protected.]".

(** [handleFileChange], lines 379-446; [files0] is
    [event.target.files?.[0]]. *)
Definition handleFileChange (files0 : option File) : M unit :=
  match files0 with
  | None => ret tt
  | Some file =>
      if size file >? 10 * 1024 * 1024 then ret tt
      else
        setIsPdfFile (isPdf file) ;;
        setResumeFile (Some file) ;;
        try_catch
          (text <- extractByType file ;;
           setResumeText text)
          (fun _ =>
             setResumeText (fallbackText file) ;;
             setExtractionMethod (lit "failed"))
  end.

(** The columns of the row that [handleSubmit] inserts (lines 605-627)
    which come from the extraction. *)
Record ApplicationRow := mkRow {
  resume_txt : jsstring;
  file_name : jsstring;
  file_size : Z;
  file_type : jsstring;
  is_pdf : bool;
  storage_status : jsstring;
  text_extraction_method : jsstring;
  coverletter : jsstring
}.

Definition applicationRow (s : State) (file : File) : ApplicationRow :=
  mkRow (sanitizeText (resumeText s))
        (name file) (size file) (type file)
        (isPdfFile s)
        (lit "text_only")
        (or_else (extractionMethod s) (lit "unknown"))
        (if truthy (coverLetter s) then sanitizeText (coverLetter s) else []).

(** [handleSubmit], lines 516-649.  [checks_pass] stands for the form
    validation and the profile look-up of lines 524-571, [insert_ok] for
    the outcome of the insert.  The result is the row handed to the
    [applications] table, if the handler gets that far. *)
Definition handleSubmit (checks_pass insert_ok : bool)
  : World -> option ApplicationRow * World :=
  fun w =>
    match resumeFile (state w) with
    | None => (None, w)
    | Some file =>
        if checks_pass then
          let row := applicationRow (state w) file in
          if insert_ok then
            match (setResumeFile None ;; setCoverLetter [] ;;
                   setResumeText []) w with
            | (_, w') => (Some row, w')
            end
          else (Some row, w)
        else (None, w)
    end.

(** What the user does on the page. *)
Inductive UiEvent :=
| FileChosen (files0 : option File)
| SubmitClicked (checks_pass insert_ok : bool).

(** Runs the handlers of a sequence of user actions, each to completion,
    and collects the rows handed to the [applications] table. *)
Fixpoint run (evs : list UiEvent) (w : World) : list ApplicationRow * World :=
  match evs with
  | [] => ([], w)
  | FileChosen files0 :: rest =>
      match handleFileChange files0 w with
      | (_, w') => run rest w'
      end
  | SubmitClicked checks_pass insert_ok :: rest =>
      match handleSubmit checks_pass insert_ok w with
      | (row, w') =>
          match run rest w' with
          | (rows, w'') =>
              (match row with Some r => r :: rows | None => rows end, w'')
          end
      end
  end.

End Pipeline.

(** ** Auxiliary notions for the statements *)

(** The shape of a sanitized string: every [\s] code unit is a plain space
    that does not follow another one, and no other code unit is a control
    character.  [after_space] tells that the string follows a space. *)
Fixpoint clean_from (after_space : bool) (s : jsstring) : bool :=
  match s with
  | [] => true
  | c :: r =>
      if is_space c
      then negb after_space && (c =? SPACE) && clean_from true r
      else negb (is_control c) && clean_from false r
  end.

(** [lines.join(sep)] *)
Fixpoint join (sep : jsstring) (lines : list jsstring) : jsstring :=
  match lines with
  | [] => []
  | [l] => l
  | l :: rest => l ++ sep ++ join sep rest
  end.

Definition CR : jsstring := [13].
Definition TAB : jsstring := [9].

(** The five method tags the specification lists. *)
Definition spec_method_tags : list jsstring :=
  [lit "text_file"; lit "word_document"; lit "pdf_extraction"; lit "ocr";
   lit "failed"].

(** The tag that [extractByType] sets for a file. *)
Definition dispatch_tag (file : File) : jsstring :=
  if isPdf file then lit "pdf_extraction"
  else if isWordDoc file then lit "word_document"
  else if string_eqb (type file) (lit "text/plain")
          || endsWith (name file) (lit ".txt") then lit "text_file"
  else lit "unknown_file".

(** The world in which the [try] block of [handleFileChange] starts. *)
Definition selected (file : File) (w : World) : World :=
  snd ((setIsPdfFile (isPdf file) ;; setResumeFile (Some file)) w).

(** [w'] differs from [w] at most in the OCR progress cells and in the
    service calls added to the trace. *)
Definition frame (w w' : World) : Prop :=
  resumeFile (state w') = resumeFile (state w)
  /\ coverLetter (state w') = coverLetter (state w)
  /\ resumeText (state w') = resumeText (state w)
  /\ isPdfFile (state w') = isPdfFile (state w)
  /\ extractionMethod (state w') = extractionMethod (state w)
  /\ exists calls, trace w' = trace w ++ calls.

Definition preserves {A} (m : M A) : Prop :=
  forall w, frame w (snd (m w)).

(** The OCR fallback of [extractTextFromPdf] as its nested [catch] blocks
    run it: a throwing attempt is followed by another, three at most. *)
Definition ocrFallback (env : Env) (file : File) : M jsstring :=
  try_catch
    (try_catch (extractTextFromPdfWithOcr env file)
       (fun _ => extractTextFromPdfWithOcr env file))
    (fun _ => extractTextFromPdfWithOcr env file).

(** The invariant of the page: once a file is selected, the method cell
    holds one of the tags that [handleFileChange] writes. *)
Definition written_tags : list jsstring :=
  [lit "pdf_extraction"; lit "word_document"; lit "text_file";
   lit "unknown_file"; lit "failed"].

Definition tag_invariant (w : World) : Prop :=
  resumeFile (state w) <> None ->
  In (extractionMethod (state w)) written_tags.

(** ** Sample files and environments *)

Definition sample_date : jsstring := lit "1/15/2025, 9:30:00 AM".

(** A browser in which every service fails and the model endpoint is
    unreachable. *)
Definition offline_env : Env :=
  mkEnv (fun _ _ => Throw Thrown) (fun _ _ => Throw Thrown)
        (fun _ _ => Throw Thrown) (fun _ => Throw Thrown)
        (fun _ _ => Throw Thrown) (fun _ _ => Throw Thrown)
        (fun _ _ => Throw Thrown) (fun _ => Throw Thrown)
        (fun _ _ => FetchRejected Thrown) (fun _ => sample_date).

(** A browser whose file reads give [text], whose OCR engine works and
    recognizes [ocr_text], whose Word converter fails with [word_error],
    and whose model endpoint answers [reply]. *)
Definition sample_env (text ocr_text : jsstring) (reply : FetchReply) : Env :=
  mkEnv (fun _ _ => Ok text) (fun _ _ => Ok tt)
        (fun _ _ => Throw (Error (lit "Corrupted zip: missing end of central directory")))
        (fun _ => Ok tt)
        (fun _ _ => Ok tt) (fun _ _ => Ok tt)
        (fun _ _ => Ok ocr_text) (fun _ => Ok tt)
        (fun _ _ => reply) (fun _ => sample_date).

Definition http_500 : FetchReply :=
  FetchResponse false (BodyUnparseable (Error (lit "SyntaxError"))).

Definition scanned_pdf : File :=
  mkFile (lit "resume.pdf") (lit "application/pdf") 204800 1736933400000.

Definition corrupt_docx : File :=
  mkFile (lit "cv.docx")
    (lit "application/vnd.openxmlformats-officedocument.wordprocessingml.document")
    20480 1736933400000.

Definition rtf_file : File :=
  mkFile (lit "cv.rtf") (lit "application/rtf") 4096 1736933400000.

Definition pdf_header : jsstring := lit "%PDF-1.4" ++ LF.

Definition jane_doe : jsstring :=
  lit "Jane Doe" ++ LF ++ lit "Software Engineer".

(** One hundred letters. *)
Definition hundred_letters : jsstring := repeat 97 100.

(** The text an engine that reads every page gives for eight pages. *)
Definition eight_pages : jsstring :=
  join LF [lit "Page 1"; lit "Page 2"; lit "Page 3"; lit "Page 4";
           lit "Page 5"; lit "Page 6"; lit "Page 7"; lit "Page 8"].

(** ** The guest form and the reference id of [handleSubmit] *)

(** The [formData] cell. *)
Record FormData := mkFormData {
  fullName : jsstring;
  email : jsstring;
  phone : jsstring;
  linkedIn : jsstring;
  portfolio : jsstring
}.

Definition AT_SIGN : Z := 64.
Definition FULL_STOP : Z := 46.

(** The class [[^\s@]]. *)
Definition is_email_unit (c : Z) : bool :=
  negb (is_space c) && negb (c =? AT_SIGN).

(** The longest prefix of [[^\s@]] code units, and what follows it. *)
Fixpoint email_local (s : jsstring) : jsstring * jsstring :=
  match s with
  | [] => ([], [])
  | c :: r =>
      if is_email_unit c
      then match email_local r with (l, rest) => (c :: l, rest) end
      else ([], s)
  end.

(** A full stop that is neither the first nor the last code unit. *)
Definition inner_full_stop (d : jsstring) : bool :=
  existsb (fun c => c =? FULL_STOP) (removelast (tl d)).

(** [emailRegex.test(s)] for [/^[^\s@]+@[^\s@]+\.[^\s@]+$/], line 535:
    the local part is the run of [[^\s@]] before the first other code
    unit, which must be the at sign; what follows must be [[^\s@]] units
    with a full stop strictly inside. *)
Definition emailRegex_test (s : jsstring) : bool :=
  match email_local s with
  | (l, c :: d) =>
      (c =? AT_SIGN) && truthy l && forallb is_email_unit d
      && inner_full_stop d
  | (_, []) => false
  end.

(** What the pattern denotes: a local part, an at sign, a domain part, a
    full stop and a last part, the three parts non-empty and made of
    [[^\s@]] code units. *)
Definition emailRegex_matches (s : jsstring) : Prop :=
  exists l d t,
    s = l ++ AT_SIGN :: d ++ FULL_STOP :: t
    /\ l <> [] /\ d <> [] /\ t <> []
    /\ forallb is_email_unit l = true
    /\ forallb is_email_unit d = true
    /\ forallb is_email_unit t = true.

(** Lines 524-540 of [handleSubmit]: the message of the error toast, or
    [None] when the handler goes on. *)
Definition validateForm (isLoggedIn : bool) (formData : FormData)
  : option jsstring :=
  if negb isLoggedIn then
    if negb (truthy (trim (fullName formData)))
    then Some (lit "Please enter your full name")
    else if negb (truthy (trim (email formData)))
    then Some (lit "Please enter your email address")
    else if negb (emailRegex_test (email formData))
    then Some (lit "Please enter a valid email address")
    else None
  else None.

(** Lines 583-586: [now] is [Date.now()]. *)
Definition referenceId (now : Z) (fileName : jsstring) : jsstring :=
  lit "resume_" ++ number_to_string now ++ lit "_"
  ++ replace_runs is_space (lit "_") fileName.

(** ** The review page's reading of a stored application *)

Module Review.

(** The fields of [Application] that [checkResumeAvailability] reads;
    an optional field is [None] when undefined or null. *)
Record Application := mkApplication {
  resume : jsstring;
  storage_status : option jsstring;
  file_name : option jsstring;
  file_size : option Z;
  file_type : option jsstring;
  resume_bucket : option jsstring;
  resume_text : option jsstring;
  resume_txt : option jsstring;
  is_pdf : option bool;
  text_extraction_method : option jsstring
}.

Record Metadata := mkMetadata {
  name : jsstring;
  size : Z;
  type : jsstring
}.

(** The object that [checkResumeAvailability] returns; a key the object
    literal leaves out is [None]. *)
Record ResumeAvailabilityInfo := mkInfo {
  available : bool;
  reason : option jsstring;
  path : option jsstring;
  bucket : option jsstring;
  isPdf : option bool;
  text : option jsstring;
  extraction_method : option jsstring;
  metadata : option Metadata
}.

(** Truthiness of an optional string, number and boolean. *)
Definition truthy_string (o : option jsstring) : bool :=
  match o with Some s => truthy s | None => false end.

Definition truthy_number (o : option Z) : bool :=
  match o with Some n => negb (n =? 0) | None => false end.

Definition truthy_bool (o : option bool) : bool :=
  match o with Some b => b | None => false end.

(** [a || b] on two optional strings. *)
Definition or_opt (a b : option jsstring) : option jsstring :=
  if truthy_string a then a else b.

(** [a || d] with a string default. *)
Definition or_default (a : option jsstring) (d : jsstring) : jsstring :=
  match a with
  | Some s => if truthy s then s else d
  | None => d
  end.

(** [a && a.length > n] *)
Definition longer_than (a : option jsstring) (n : Z) : bool :=
  match a with
  | Some s => truthy s && (len s >? n)
  | None => false
  end.

(** [o === s] *)
Definition is_string (o : option jsstring) (s : jsstring) : bool :=
  match o with Some x => string_eqb x s | None => false end.

(** [checkResumeAvailability], lines 1508-1598 of the review page. *)
Definition checkResumeAvailability (application : Application)
  : ResumeAvailabilityInfo :=
  if longer_than (resume_txt application) 100 then
    mkInfo true
      (Some (if truthy_bool (is_pdf application)
             then lit "PDF resume with extracted text"
             else lit "Resume text stored directly in database"))
      None None
      (Some (truthy_bool (is_pdf application)))
      (resume_txt application)
      (Some (or_default (text_extraction_method application) (lit "unknown")))
      None
  else if longer_than (resume_text application) 100 then
    mkInfo true
      (Some (lit "Resume text from legacy field"))
      None None
      (Some (truthy_bool (is_pdf application)))
      (resume_text application)
      (Some (or_default (text_extraction_method application) (lit "unknown")))
      None
  else if truthy_bool (is_pdf application)
          && truthy_string
               (or_opt (resume_txt application) (resume_text application))
  then
    mkInfo true
      (Some (lit "PDF resume with limited text extraction"))
      None None
      (Some true)
      (Some (or_default
               (or_opt (resume_txt application) (resume_text application))
               []))
      None
      (Some (mkMetadata
               (or_default (file_name application) (lit "resume.pdf"))
               (match file_size application with
                | Some n => n
                | None => 0
                end)
               (or_default (file_type application) (lit "application/pdf"))))
  else if (is_string (storage_status application) (lit "text_extracted")
           || is_string (storage_status application) (lit "text_only"))
          && truthy_string
               (or_opt (resume_txt application) (resume_text application))
  then
    mkInfo true
      (Some (lit "Resume text extracted"))
      None None None
      (Some (or_default
               (or_opt (resume_txt application) (resume_text application))
               []))
      None None
  else if is_string (storage_status application) (lit "pending_upload") then
    mkInfo false
      (Some (lit "Storage unavailable - resume details saved as metadata"))
      None None None None None None
  else if truthy_string (file_name application)
          && truthy_number (file_size application)
  then
    mkInfo false
      (Some (lit "Resume file information saved"))
      None None None None None
      (Some (mkMetadata
               (or_default (file_name application) [])
               (match file_size application with
                | Some n => n
                | None => 0
                end)
               (or_default (file_type application) (lit "Unknown"))))
  else if truthy (resume application)
          && negb (truthy_string (resume_bucket application))
  then
    mkInfo false
      (Some (lit "Resume path saved but storage unavailable"))
      None None None None None None
  else if truthy (resume application)
          && truthy_string (resume_bucket application)
  then
    mkInfo true None (Some (resume application)) (resume_bucket application)
      None None None None
  else
    mkInfo false (Some (lit "No resume information"))
      None None None None None None.

End Review.

(** The application as the review page reads it back after [handleSubmit]
    inserted [row] at time [now]: the columns the insert sets, the legacy
    columns [resume_text] and [resume_bucket] null. *)
Definition storedApplication (now : Z) (row : ApplicationRow)
  : Review.Application :=
  Review.mkApplication
    (referenceId now (file_name row))
    (Some (storage_status row))
    (Some (file_name row))
    (Some (file_size row))
    (Some (file_type row))
    None
    None
    (Some (resume_txt row))
    (Some (is_pdf row))
    (Some (text_extraction_method row)).

(** ** Further notions for the statements *)

(** A sanitized string: the shape [sanitizeText] produces, within its
    length limit. *)
Definition sanitized (t : jsstring) : Prop :=
  clean_from false t = true /\ len t <= 100000.

(** Every value [m] returns satisfies [P]. *)
Definition returns {A} (P : A -> Prop) (m : M A) : Prop :=
  forall w a w', m w = (Ok a, w') -> P a.

Definition is_createWorker (ev : Event) : bool :=
  match ev with ECreateWorker => true | _ => false end.

Definition is_terminate (ev : Event) : bool :=
  match ev with ETerminate => true | _ => false end.

Definition is_fetch (ev : Event) : bool :=
  match ev with EFetch _ => true | _ => false end.

Definition count (p : Event -> bool) (calls : list Event) : nat :=
  List.length (filter p calls).

Definition eng : jsstring := lit "eng".

(** The service calls of one run of [extractTextFromPdfWithOcr], in
    order: the run stops at the first engine call that throws, and the
    worker, once created, is terminated last. *)
Definition ocr_call_sequence (file : File) (calls : list Event) : Prop :=
  calls = [ECreateWorker]
  \/ calls = [ECreateWorker; ELoadLanguage eng; ETerminate]
  \/ calls = [ECreateWorker; ELoadLanguage eng; EInitialize eng; ETerminate]
  \/ calls = [ECreateWorker; ELoadLanguage eng; EInitialize eng;
              ERecognize file; ETerminate]
  \/ exists text,
       calls = [ECreateWorker; ELoadLanguage eng; EInitialize eng;
                ERecognize file; EFetch text; ETerminate].

(** The two OCR attempts of [extractTextFromPdf] when the plain-text read
    throws. *)
Definition ocrRetry (env : Env) (file : File) : M jsstring :=
  try_catch (extractTextFromPdfWithOcr env file)
    (fun _ => extractTextFromPdfWithOcr env file).

(** What the page keeps true of a selected file. *)
Definition selection_invariant (w : World) : Prop :=
  forall file,
    resumeFile (state w) = Some file ->
    size file <= 10 * 1024 * 1024
    /\ isPdfFile (state w) = isPdf file
    /\ (extractionMethod (state w) = dispatch_tag file
        \/ extractionMethod (state w) = lit "failed").

(** A browser whose file reads give a short text and in which no OCR
    worker can be created. *)
Definition no_worker_env : Env :=
  mkEnv (fun _ _ => Ok (lit "short")) (fun _ _ => Throw Thrown)
        (fun _ _ => Throw Thrown) (fun _ => Throw Thrown)
        (fun _ _ => Throw Thrown) (fun _ _ => Throw Thrown)
        (fun _ _ => Throw Thrown) (fun _ => Throw Thrown)
        (fun _ _ => FetchRejected Thrown) (fun _ => sample_date).

Definition text_file : File :=
  mkFile (lit "cv.txt") (lit "text/plain") 2048 1736933400000.

Definition guest_form : FormData :=
  mkFormData (lit "Jane Doe") (lit "jane.doe@example.com") [] [] [].

Definition oversize_pdf : File :=
  mkFile (lit "big.pdf") (lit "application/pdf") (10 * 1024 * 1024 + 1)
    1736933400000.

(** A PDF uploaded under a plain-text name and type. *)
Definition misnamed_pdf : File :=
  mkFile (lit "scan.txt") (lit "text/plain") 204800 1736933400000.

(** A browser whose Word converter gives [text] and whose model endpoint
    answers [reply]. *)
Definition converter_env (text : jsstring) (reply : FetchReply) : Env :=
  mkEnv (fun _ _ => Throw Thrown) (fun _ _ => Ok tt)
        (fun _ _ => Ok text) (fun _ => Throw Thrown)
        (fun _ _ => Throw Thrown) (fun _ _ => Throw Thrown)
        (fun _ _ => Throw Thrown) (fun _ => Throw Thrown)
        (fun _ _ => reply) (fun _ => sample_date).

Definition zip_error : JsError :=
  Error (lit "Corrupted zip: missing end of central directory").

(** The last line of the placeholder built by [fallbackText]. *)
Definition placeholder_note : jsstring :=
  lit "[The file content could not be automatically extracted. Please try a different file format (like .txt) or ensure the file is not corrupted or password protected.]".

(** What [enhanceOcrResultWithAi] returns for [text] when the model
    endpoint answers [reply]: the sanitized completion when the answer
    has an OK status and its completion is a string longer than half the
    text, the sanitized text in every other case. *)
Definition enhancement_result (reply : FetchReply) (text : jsstring)
  : jsstring :=
  match reply with
  | FetchResponse true (BodyData (CompletionString s)) =>
      if 2 * len s >? len text then sanitizeText s else sanitizeText text
  | _ => sanitizeText text
  end.

Definition is_readAsText (ev : Event) : bool :=
  match ev with EReadAsText _ => true | _ => false end.

(** A converted text of 150 letters and a completion of 80 letters. *)
Definition long_letters : jsstring := repeat 97 150.
Definition completion_letters : jsstring := repeat 98 80.

Definition accepting_reply : FetchReply :=
  FetchResponse true (BodyData (CompletionString completion_letters)).

(** ** The sanitizer: shape of the output *)

Lemma sanitizeText_pipeline (text : jsstring) :
  sanitizeText text =
  substring0 100000
    (replace_runs is_space [SPACE]
      (replace_each is_tab [SPACE] (replace_each is_control [] text))).
Proof.
  unfold sanitizeText. destruct text; reflexivity.
Qed.

Lemma control_strip_is_filter (s : jsstring) :
  replace_each is_control [] s = filter (fun c => negb (is_control c)) s.
Proof.
  unfold replace_each.
  induction s as [|c r IH]; simpl; [reflexivity|].
  destruct (is_control c); simpl; now rewrite IH.
Qed.

Lemma control_strip_free (s : jsstring) :
  Forall (fun c => is_control c = false) (replace_each is_control [] s).
Proof.
  rewrite control_strip_is_filter.
  apply Forall_forall. intros c Hc.
  apply filter_In in Hc. destruct Hc as [_ Hc].
  now apply negb_true_iff.
Qed.

Lemma control_strip_app (a b : jsstring) :
  replace_each is_control [] (a ++ b) =
  replace_each is_control [] a ++ replace_each is_control [] b.
Proof. unfold replace_each. apply flat_map_app. Qed.

Lemma tab_is_control (c : Z) : is_tab c = true -> is_control c = true.
Proof.
  unfold is_tab, is_control. intros H.
  apply Z.eqb_eq in H. subst c. reflexivity.
Qed.

Lemma space_unit_not_control (c : Z) :
  (c =? SPACE) = true -> is_control c = false.
Proof.
  intros H. apply Z.eqb_eq in H. subst c. reflexivity.
Qed.

Lemma space_unit_not_tab (c : Z) : (c =? SPACE) = true -> is_tab c = false.
Proof.
  intros H. apply Z.eqb_eq in H. subst c. reflexivity.
Qed.

Lemma tab_is_space (c : Z) : is_tab c = true -> is_space c = true.
Proof.
  unfold is_tab. intros H. apply Z.eqb_eq in H. subst c. reflexivity.
Qed.

Lemma replace_each_none (p : Z -> bool) (rep s : jsstring) :
  Forall (fun c => p c = false) s -> replace_each p rep s = s.
Proof.
  unfold replace_each.
  induction 1 as [|c r Hc _ IH]; simpl; [reflexivity|].
  now rewrite Hc, IH.
Qed.

Lemma tab_replace_after_strip (s : jsstring) :
  replace_each is_tab [SPACE] (replace_each is_control [] s) =
  replace_each is_control [] s.
Proof.
  apply replace_each_none.
  eapply Forall_impl; [|apply control_strip_free].
  intros c Hc. simpl in Hc.
  destruct (is_tab c) eqn:Ht; [|reflexivity].
  apply tab_is_control in Ht. congruence.
Qed.

Lemma collapse_clean (s : jsstring) :
  Forall (fun c => is_control c = false) s ->
  forall b, clean_from b (replace_runs_from is_space [SPACE] b s) = true.
Proof.
  induction 1 as [|c r Hc _ IH]; intros b; simpl; [reflexivity|].
  destruct (is_space c) eqn:Hs.
  - destruct b; simpl.
    + apply IH.
    + apply IH.
  - simpl. rewrite Hs, Hc. simpl. apply IH.
Qed.

Lemma clean_firstn (n : nat) :
  forall s b, clean_from b s = true -> clean_from b (firstn n s) = true.
Proof.
  induction n as [|n IH]; intros s b H; [reflexivity|].
  destruct s as [|c r]; [reflexivity|].
  simpl in *. destruct (is_space c).
  - apply andb_true_iff in H. destruct H as [H1 H2].
    rewrite H1. simpl. now apply IH.
  - apply andb_true_iff in H. destruct H as [H1 H2].
    rewrite H1. simpl. now apply IH.
Qed.

Lemma clean_units (s : jsstring) :
  forall b, clean_from b s = true ->
  Forall (fun c => is_control c = false /\ is_tab c = false) s.
Proof.
  induction s as [|c r IH]; intros b H; constructor.
  - simpl in H. destruct (is_space c) eqn:Hs.
    + apply andb_true_iff in H. destruct H as [H _].
      apply andb_true_iff in H. destruct H as [_ H].
      split; [now apply space_unit_not_control|now apply space_unit_not_tab].
    + apply andb_true_iff in H. destruct H as [H _].
      apply negb_true_iff in H. split; [exact H|].
      destruct (is_tab c) eqn:Ht; [|reflexivity].
      apply tab_is_space in Ht. congruence.
  - simpl in H. destruct (is_space c);
      apply andb_true_iff in H; destruct H as [_ H]; eapply IH; eassumption.
Qed.

Lemma clean_collapse_fixed (s : jsstring) :
  forall b, clean_from b s = true ->
  replace_runs_from is_space [SPACE] b s = s.
Proof.
  induction s as [|c r IH]; intros b H; simpl in *; [reflexivity|].
  destruct (is_space c).
  - apply andb_true_iff in H. destruct H as [H H2].
    apply andb_true_iff in H. destruct H as [Hb Hc].
    apply negb_true_iff in Hb. subst b.
    apply Z.eqb_eq in Hc. subst c.
    simpl. now rewrite IH.
  - apply andb_true_iff in H. destruct H as [_ H]. now rewrite IH.
Qed.

Lemma sanitizeText_clean (x : jsstring) :
  clean_from false (sanitizeText x) = true.
Proof.
  rewrite sanitizeText_pipeline, tab_replace_after_strip.
  unfold substring0, replace_runs.
  apply clean_firstn, collapse_clean, control_strip_free.
Qed.

Lemma sanitizeText_length (x : jsstring) : len (sanitizeText x) <= 100000.
Proof.
  rewrite sanitizeText_pipeline. unfold substring0, len.
  rewrite length_firstn. lia.
Qed.

Lemma sanitizeText_of_clean (s : jsstring) :
  clean_from false s = true -> len s <= 100000 -> sanitizeText s = s.
Proof.
  intros Hc Hl.
  pose proof (clean_units s false Hc) as Hu.
  rewrite sanitizeText_pipeline.
  rewrite (replace_each_none is_control);
    [|eapply Forall_impl; [|exact Hu]; simpl; tauto].
  rewrite (replace_each_none is_tab);
    [|eapply Forall_impl; [|exact Hu]; simpl; tauto].
  unfold replace_runs. rewrite clean_collapse_fixed by exact Hc.
  unfold substring0. apply firstn_all2. unfold len in Hl. lia.
Qed.

Lemma control_strip_join (sep : jsstring) (lines : list jsstring) :
  replace_each is_control [] sep = [] ->
  replace_each is_control [] (join sep lines) =
  replace_each is_control [] (List.concat lines).
Proof.
  intros Hsep.
  induction lines as [|l rest IH]; [reflexivity|].
  destruct rest as [|l' rest'].
  - simpl. now rewrite app_nil_r.
  - change (join sep (l :: l' :: rest'))
      with (l ++ sep ++ join sep (l' :: rest')).
    change (List.concat (l :: l' :: rest'))
      with (l ++ List.concat (l' :: rest')).
    rewrite !control_strip_app, Hsep, IH. reflexivity.
Qed.

Lemma sanitizeText_strip_invariant (a b : jsstring) :
  replace_each is_control [] a = replace_each is_control [] b ->
  sanitizeText a = sanitizeText b.
Proof.
  intros H. rewrite !sanitizeText_pipeline. now rewrite H.
Qed.

(** ** Claims about the sanitizer *)

(** C7. The sanitizer is idempotent: sanitizing a sanitized string gives
    the same string again, for every string [x]. *)
Theorem sanitizeText_idempotent (x : jsstring) :
  sanitizeText (sanitizeText x) = sanitizeText x.
Proof.
  apply sanitizeText_of_clean.
  - apply sanitizeText_clean.
  - apply sanitizeText_length.
Qed.

(** C8. For every string [x], of any length, the sanitized string has at
    most 100,000 code units, none of them in the control ranges
    U+0000-U+001F and U+007F-U+009F, and none of them a tab. *)
Theorem sanitizeText_bounded_no_control (x : jsstring) :
  len (sanitizeText x) <= 100000
  /\ Forall (fun c => is_control c = false /\ c <> 9) (sanitizeText x).
Proof.
  split; [apply sanitizeText_length|].
  eapply Forall_impl; [|apply (clean_units _ false), sanitizeText_clean].
  intros c [Hc Ht]. split; [exact Hc|].
  unfold is_tab in Ht. now apply Z.eqb_neq.
Qed.

(** C10. Newlines and carriage returns are deleted outright by the
    control-character strip, before any whitespace is collapsed.  No
    sanitized string contains one.  An input whose lines are joined by
    newlines (or by carriage returns) sanitizes to what the lines put end
    to end sanitize to, namely their concatenation with its remaining
    control characters removed, its whitespace runs collapsed and the
    result truncated; when the concatenation needs none of that, the
    output is the concatenation itself, the last character of a line
    directly followed by the first of the next.  So "Jane Doe", newline,
    "Software Engineer" becomes "Jane DoeSoftware Engineer" and not
    "Jane Doe Software Engineer". *)
Theorem sanitizeText_deletes_newlines :
  (forall lines, sanitizeText (join LF lines) = sanitizeText (List.concat lines))
  /\ (forall lines, sanitizeText (join CR lines) = sanitizeText (List.concat lines))
  /\ sanitizeText (lit "Jane Doe" ++ LF ++ lit "Software Engineer")
     = lit "Jane DoeSoftware Engineer"
  /\ sanitizeText (lit "Jane Doe" ++ LF ++ lit "Software Engineer")
     <> lit "Jane Doe Software Engineer"
  /\ (forall x, Forall (fun c => c <> 10 /\ c <> 13) (sanitizeText x))
  /\ (forall lines,
        sanitizeText (join LF lines)
        = substring0 100000
            (replace_runs is_space [SPACE]
               (replace_each is_control [] (List.concat lines)))
        /\ sanitizeText (join CR lines)
           = substring0 100000
               (replace_runs is_space [SPACE]
                  (replace_each is_control [] (List.concat lines))))
  /\ (forall lines,
        sanitized (List.concat lines) ->
        sanitizeText (join LF lines) = List.concat lines
        /\ sanitizeText (join CR lines) = List.concat lines).
Proof.
  assert (Hjoin : forall sep lines,
            replace_each is_control [] sep = [] ->
            sanitizeText (join sep lines)
            = substring0 100000
                (replace_runs is_space [SPACE]
                   (replace_each is_control [] (List.concat lines)))).
  { intros sep lines Hsep.
    rewrite sanitizeText_pipeline, tab_replace_after_strip.
    now rewrite (control_strip_join sep lines Hsep). }
  split; [|split; [|split; [|split; [|split; [|split]]]]].
  - intros lines. apply sanitizeText_strip_invariant.
    now apply control_strip_join.
  - intros lines. apply sanitizeText_strip_invariant.
    now apply control_strip_join.
  - vm_compute. reflexivity.
  - vm_compute. discriminate.
  - intros x.
    eapply Forall_impl; [|apply (clean_units _ false), sanitizeText_clean].
    intros c [Hc _]. split; intros ->; discriminate.
  - intros lines. split; now apply Hjoin.
  - intros lines [Hclean Hlen].
    assert (Hfix : substring0 100000
                     (replace_runs is_space [SPACE]
                        (replace_each is_control [] (List.concat lines)))
                   = List.concat lines).
    { rewrite <- tab_replace_after_strip, <- sanitizeText_pipeline.
      now apply sanitizeText_of_clean. }
    split; (rewrite Hjoin by reflexivity; exact Hfix).
Qed.

(** The two lines of the example, put end to end. *)
Lemma sanitizeText_deletes_newlines_witness :
  sanitizeText (join LF [lit "Jane Doe"; lit "Software Engineer"])
  = List.concat [lit "Jane Doe"; lit "Software Engineer"]
  /\ sanitizeText (join CR [lit "Jane Doe"; lit "Software Engineer"])
     = List.concat [lit "Jane Doe"; lit "Software Engineer"].
Proof.
  apply (proj2 (proj2 (proj2 (proj2 (proj2 (proj2
           sanitizeText_deletes_newlines)))))
           [lit "Jane Doe"; lit "Software Engineer"]).
  split; vm_compute; [reflexivity|discriminate].
Defined.

(** C4. What the code does with a tab between two letters: the tab is in
    the control range stripped first, so the later tab replacement finds
    nothing and "a", tab, "b" sanitizes to "ab", not to "a b". *)
Theorem sanitizeText_tab_is_deleted :
  sanitizeText (lit "a" ++ TAB ++ lit "b") = lit "ab"
  /\ sanitizeText (lit "a" ++ TAB ++ lit "b") <> lit "a b"
  /\ (forall s,
        replace_each is_tab [SPACE] (replace_each is_control [] s)
        = replace_each is_control [] s).
Proof.
  split; [|split].
  - vm_compute. reflexivity.
  - vm_compute. discriminate.
  - apply tab_replace_after_strip.
Qed.

(** ** What the extractors leave untouched *)

Lemma frame_refl (w : World) : frame w w.
Proof.
  unfold frame. repeat split. exists []. now rewrite app_nil_r.
Qed.

Lemma frame_trans (w1 w2 w3 : World) :
  frame w1 w2 -> frame w2 w3 -> frame w1 w3.
Proof.
  unfold frame.
  intros (a1 & a2 & a3 & a4 & a5 & c1 & a6) (b1 & b2 & b3 & b4 & b5 & c2 & b6).
  repeat split; try congruence.
  exists (c1 ++ c2). now rewrite b6, a6, app_assoc.
Qed.

Lemma preserves_ret {A} (a : A) : preserves (ret a).
Proof. intros w. apply frame_refl. Qed.

Lemma preserves_throw {A} (e : JsError) : preserves (@throw A e).
Proof. intros w. apply frame_refl. Qed.

Lemma preserves_call {A} (ev : Event) (answer : nat -> Result A) :
  preserves (call ev answer).
Proof. intros w. unfold frame. simpl. repeat split. now exists [ev]. Qed.

Lemma preserves_setOcrProgress (v : Z) : preserves (setOcrProgress v).
Proof.
  intros w. unfold frame. simpl. repeat split.
  exists []. now rewrite app_nil_r.
Qed.

Lemma preserves_setIsOcrProcessing (v : bool) :
  preserves (setIsOcrProcessing v).
Proof.
  intros w. unfold frame. simpl. repeat split.
  exists []. now rewrite app_nil_r.
Qed.

Lemma preserves_bind {A B} (m : M A) (k : A -> M B) :
  preserves m -> (forall a, preserves (k a)) -> preserves (bind m k).
Proof.
  intros Hm Hk w. unfold bind.
  specialize (Hm w). destruct (m w) as [[a|e] w1]; simpl in *.
  - eapply frame_trans; [exact Hm|apply Hk].
  - exact Hm.
Qed.

Lemma preserves_try_catch {A} (m : M A) (h : JsError -> M A) :
  preserves m -> (forall e, preserves (h e)) -> preserves (try_catch m h).
Proof.
  intros Hm Hh w. unfold try_catch.
  specialize (Hm w). destruct (m w) as [[a|e] w1]; simpl in *.
  - exact Hm.
  - eapply frame_trans; [exact Hm|apply Hh].
Qed.

Lemma preserves_try_finally {A} (m : M A) (f : M unit) :
  preserves m -> preserves f -> preserves (try_finally m f).
Proof.
  intros Hm Hf w. unfold try_finally.
  specialize (Hm w). destruct (m w) as [r w1]. simpl in Hm.
  specialize (Hf w1). destruct (f w1) as [[u|e] w2]; simpl in *;
    eapply frame_trans; eassumption.
Qed.

Lemma preserves_attempt {A} (m : M A) : preserves m -> preserves (attempt m).
Proof.
  intros Hm w. unfold attempt. specialize (Hm w).
  destruct (m w) as [r w1]. exact Hm.
Qed.

Create HintDb frame.
#[local] Hint Resolve preserves_ret preserves_throw preserves_call
  preserves_setOcrProgress preserves_setIsOcrProcessing : frame.

Ltac frame_step :=
  match goal with
  | |- preserves (bind _ _) => apply preserves_bind; [|intros ?]
  | |- preserves (try_catch _ _) => apply preserves_try_catch; [|intros ?]
  | |- preserves (try_finally _ _) => apply preserves_try_finally
  | |- preserves (attempt _) => apply preserves_attempt
  | |- preserves (if ?b then _ else _) => destruct b
  | |- preserves (match ?x with _ => _ end) => destruct x
  | |- _ => solve [auto with frame]
  end.

Lemma preserves_extractTextFromTextFile (env : Env) (file : File) :
  preserves (extractTextFromTextFile env file).
Proof. unfold extractTextFromTextFile. repeat frame_step. Qed.

Lemma preserves_enhanceOcrResultWithAi (env : Env) (text : jsstring) :
  preserves (enhanceOcrResultWithAi env text).
Proof. unfold enhanceOcrResultWithAi. repeat frame_step. Qed.

#[local] Hint Resolve preserves_extractTextFromTextFile
  preserves_enhanceOcrResultWithAi : frame.

Lemma preserves_extractTextFromPdfWithOcr (env : Env) (file : File) :
  preserves (extractTextFromPdfWithOcr env file).
Proof.
  unfold extractTextFromPdfWithOcr, recognizeWithWorker, terminateWorker.
  repeat frame_step.
Qed.

#[local] Hint Resolve preserves_extractTextFromPdfWithOcr : frame.

Lemma preserves_extractTextFromPdf (env : Env) (file : File) :
  preserves (extractTextFromPdf env file).
Proof. unfold extractTextFromPdf. repeat frame_step. Qed.

Lemma preserves_extractTextFromWordDocument (env : Env) (file : File) :
  preserves (extractTextFromWordDocument env file).
Proof. unfold extractTextFromWordDocument. repeat frame_step. Qed.

#[local] Hint Resolve preserves_extractTextFromPdf
  preserves_extractTextFromWordDocument : frame.

(** [extractByType] writes [dispatch_tag file] into the method cell and
    leaves the other cells of the form alone. *)
Lemma extractByType_state (env : Env) (file : File) (w : World) :
  let w1 := snd (extractByType env file w) in
  extractionMethod (state w1) = dispatch_tag file
  /\ resumeFile (state w1) = resumeFile (state w)
  /\ isPdfFile (state w1) = isPdfFile (state w)
  /\ coverLetter (state w1) = coverLetter (state w).
Proof.
  unfold extractByType, dispatch_tag.
  assert (H : forall tag (m : M jsstring), preserves m ->
            let w1 := snd ((setExtractionMethod tag ;; m) w) in
            extractionMethod (state w1) = tag
            /\ resumeFile (state w1) = resumeFile (state w)
            /\ isPdfFile (state w1) = isPdfFile (state w)
            /\ coverLetter (state w1) = coverLetter (state w)).
  { intros tag m Hm. unfold bind, setExtractionMethod, modify. simpl.
    match goal with |- context [m ?w0] => specialize (Hm w0) end.
    destruct Hm as (a1 & a2 & a3 & a4 & a5 & _). simpl in *.
    repeat split; assumption. }
  destruct (isPdf file); [apply H; auto with frame|].
  destruct (isWordDoc file); [apply H; auto with frame|].
  destruct (string_eqb (type file) (lit "text/plain")
            || endsWith (name file) (lit ".txt"));
    apply H; auto with frame.
Qed.

Lemma dispatch_tag_written (file : File) : In (dispatch_tag file) written_tags.
Proof.
  unfold dispatch_tag, written_tags.
  destruct (isPdf file); [simpl; tauto|].
  destruct (isWordDoc file); [simpl; tauto|].
  destruct (string_eqb (type file) (lit "text/plain")
            || endsWith (name file) (lit ".txt")); simpl; tauto.
Qed.

(** ** The upload handler *)

Lemma handleFileChange_unfold (env : Env) (file : File) (w : World) :
  size file <= 10 * 1024 * 1024 ->
  handleFileChange env (Some file) w =
  match extractByType env file (selected file w) with
  | (Ok text, w1) => setResumeText text w1
  | (Throw e, w1) =>
      (setResumeText (fallbackText env file) ;;
       setExtractionMethod (lit "failed")) w1
  end.
Proof.
  intros Hsize.
  assert (Hgt : (size file >? 10 * 1024 * 1024) = false).
  { rewrite Z.gtb_ltb. apply Z.ltb_ge. exact Hsize. }
  unfold handleFileChange. rewrite Hgt.
  unfold selected, try_catch, bind, setIsPdfFile, setResumeFile, modify.
  simpl.
  destruct (extractByType env file _) as [[text|e] w1]; reflexivity.
Qed.

(** The two ways [handleFileChange] ends for a file within the size
    limit. *)
Lemma handleFileChange_outcome (env : Env) (file : File) (w : World) :
  size file <= 10 * 1024 * 1024 ->
  exists w',
    handleFileChange env (Some file) w = (Ok tt, w')
    /\ resumeFile (state w') = Some file
    /\ isPdfFile (state w') = isPdf file
    /\ coverLetter (state w') = coverLetter (state w)
    /\ ((exists text w1,
           extractByType env file (selected file w) = (Ok text, w1)
           /\ extractionMethod (state w') = dispatch_tag file
           /\ resumeText (state w') = text)
        \/ (exists e w1,
              extractByType env file (selected file w) = (Throw e, w1)
              /\ extractionMethod (state w') = lit "failed"
              /\ resumeText (state w') = fallbackText env file)).
Proof.
  intros Hsize.
  rewrite (handleFileChange_unfold env file w Hsize).
  pose proof (extractByType_state env file (selected file w)) as Hst.
  destruct (extractByType env file (selected file w)) as [[text|e] w1];
    simpl in Hst; destruct Hst as (Hm & Hf & Hp & Hc).
  - eexists. split; [reflexivity|]. simpl.
    repeat split; try assumption.
    left. exists text, w1. repeat split; assumption.
  - eexists. split; [reflexivity|]. simpl.
    repeat split; try assumption.
    right. exists e, w1. repeat split.
Qed.

Lemma handleFileChange_returns (env : Env) (files0 : option File) (w : World) :
  fst (handleFileChange env files0 w) = Ok tt.
Proof.
  destruct files0 as [file|]; [|reflexivity].
  destruct (Z.le_gt_cases (size file) (10 * 1024 * 1024)) as [Hle|Hgt].
  - destruct (handleFileChange_outcome env file w Hle) as (w' & H & _).
    now rewrite H.
  - unfold handleFileChange.
    replace (size file >? 10 * 1024 * 1024) with true; [reflexivity|].
    symmetry. rewrite Z.gtb_ltb. apply Z.ltb_lt. exact Hgt.
Qed.

Lemma handleFileChange_invariant (env : Env) (files0 : option File)
    (w : World) :
  tag_invariant w -> tag_invariant (snd (handleFileChange env files0 w)).
Proof.
  intros Hinv.
  destruct files0 as [file|]; [|exact Hinv].
  destruct (Z.le_gt_cases (size file) (10 * 1024 * 1024)) as [Hle|Hgt].
  - destruct (handleFileChange_outcome env file w Hle)
      as (w' & H & _ & _ & _ & Hcase).
    rewrite H. simpl. intros _.
    destruct Hcase as [(text & w1 & _ & Hm & _)|(e & w1 & _ & Hm & _)];
      rewrite Hm.
    + apply dispatch_tag_written.
    + unfold written_tags. simpl. tauto.
  - unfold handleFileChange.
    replace (size file >? 10 * 1024 * 1024) with true; [exact Hinv|].
    symmetry. rewrite Z.gtb_ltb. apply Z.ltb_lt. exact Hgt.
Qed.

Lemma handleSubmit_invariant (checks_pass insert_ok : bool) (w : World) :
  tag_invariant w ->
  tag_invariant (snd (handleSubmit checks_pass insert_ok w))
  /\ (forall row, fst (handleSubmit checks_pass insert_ok w) = Some row ->
        In (text_extraction_method row) written_tags).
Proof.
  intros Hinv. unfold handleSubmit.
  destruct (resumeFile (state w)) as [file|] eqn:Hf.
  - assert (Htag : In (extractionMethod (state w)) written_tags).
    { apply Hinv. rewrite Hf. discriminate. }
    assert (Hrow : In (text_extraction_method (applicationRow (state w) file))
                      written_tags).
    { simpl. unfold or_else.
      destruct (extractionMethod (state w)) as [|c r] eqn:Hm; [|exact Htag].
      exfalso. unfold written_tags in Htag. simpl in Htag.
      repeat (destruct Htag as [Htag|Htag]; [discriminate|]). exact Htag. }
    destruct checks_pass; [|split; [exact Hinv|discriminate]].
    destruct insert_ok.
    + split.
      * unfold tag_invariant. simpl. intros H. now contradiction H.
      * intros row Hr. simpl in Hr. injection Hr as <-. exact Hrow.
    + split; [exact Hinv|].
      intros row Hr. simpl in Hr. injection Hr as <-. exact Hrow.
  - split; [exact Hinv|discriminate].
Qed.

Lemma run_rows_tagged (env : Env) (evs : list UiEvent) :
  forall w, tag_invariant w ->
  Forall (fun row => In (text_extraction_method row) written_tags)
         (fst (run env evs w)).
Proof.
  induction evs as [|ev rest IH]; intros w Hinv; [constructor|].
  destruct ev as [files0|checks_pass insert_ok]; simpl.
  - pose proof (handleFileChange_invariant env files0 w Hinv) as H1.
    destruct (handleFileChange env files0 w) as [r w1]. simpl in H1.
    apply IH. exact H1.
  - destruct (handleSubmit_invariant checks_pass insert_ok w Hinv)
      as [H1 H2].
    destruct (handleSubmit checks_pass insert_ok w) as [row w1] eqn:Hs.
    simpl in H1, H2. specialize (IH w1 H1).
    destruct (run env rest w1) as [rows w2]. simpl in *.
    destruct row as [r|]; [|exact IH].
    constructor; [now apply H2|exact IH].
Qed.

Lemma initial_world_invariant : tag_invariant initial_world.
Proof. unfold tag_invariant. simpl. intros H. now contradiction H. Qed.

(** ** Claims about the orchestrator *)

(** C5. When the extractor chosen for a file (within the size limit)
    throws after all its fallbacks, [handleFileChange] still returns
    normally: the method tag becomes "failed" and the text is the
    placeholder, which contains the file's name, its size in KB and the
    rendering of its last-modified time. *)
Theorem handleFileChange_never_blocks (env : Env) (file : File) (w : World)
    (e : JsError) (w1 : World) :
  size file <= 10 * 1024 * 1024 ->
  extractByType env file (selected file w) = (Throw e, w1) ->
  exists w',
    handleFileChange env (Some file) w = (Ok tt, w')
    /\ extractionMethod (state w') = lit "failed"
    /\ resumeText (state w') = fallbackText env file
    /\ contains (resumeText (state w')) (name file)
    /\ contains (resumeText (state w'))
         (lit "File size: " ++ number_to_string (round_div_1024 (size file))
          ++ lit " KB")
    /\ contains (resumeText (state w'))
         (lit "Last modified: " ++ toLocaleString env (lastModified file)).
Proof.
  intros Hsize Hthrow.
  destruct (handleFileChange_outcome env file w Hsize)
    as (w' & H & _ & _ & _ & Hcase).
  destruct Hcase as [(text & w2 & Hx & _)|(e' & w2 & _ & Hm & Ht)];
    [congruence|].
  exists w'. split; [exact H|]. split; [exact Hm|]. split; [exact Ht|].
  rewrite Ht. unfold fallbackText, contains.
  split; [|split].
  - exists (lit "Could not extract text from ").
    eexists. reflexivity.
  - exists (lit "Could not extract text from " ++ name file ++ lit " ("
            ++ or_else (type file) (lit "unknown type") ++ lit ")" ++ LF
            ++ lit "        " ++ LF).
    exists (LF ++ lit "Last modified: "
            ++ toLocaleString env (lastModified file) ++ LF ++ LF
            ++ lit "[The file content could not be automatically extracted. Please try a different file format (like .txt) or ensure the file is not corrupted or password protected.]").
    repeat rewrite <- app_assoc. reflexivity.
  - exists (lit "Could not extract text from " ++ name file ++ lit " ("
            ++ or_else (type file) (lit "unknown type") ++ lit ")" ++ LF
            ++ lit "        " ++ LF
            ++ lit "File size: " ++ number_to_string (round_div_1024 (size file))
            ++ lit " KB" ++ LF).
    exists (LF ++ LF
            ++ lit "[The file content could not be automatically extracted. Please try a different file format (like .txt) or ensure the file is not corrupted or password protected.]").
    repeat rewrite <- app_assoc. reflexivity.
Qed.

(** A corrupt Word document: the converter throws, the upload handler
    returns with the tag "failed". *)
Lemma handleFileChange_never_blocks_witness :
  exists w',
    handleFileChange (sample_env [] [] http_500) (Some corrupt_docx)
      initial_world = (Ok tt, w')
    /\ extractionMethod (state w') = lit "failed"
    /\ resumeText (state w') = fallbackText (sample_env [] [] http_500) corrupt_docx
    /\ contains (resumeText (state w')) (name corrupt_docx)
    /\ contains (resumeText (state w'))
         (lit "File size: "
          ++ number_to_string (round_div_1024 (size corrupt_docx))
          ++ lit " KB")
    /\ contains (resumeText (state w'))
         (lit "Last modified: "
          ++ toLocaleString (sample_env [] [] http_500)
               (lastModified corrupt_docx)).
Proof.
  refine (handleFileChange_never_blocks (sample_env [] [] http_500)
            corrupt_docx initial_world _ _ _ _).
  - simpl. lia.
  - vm_compute. reflexivity.
Defined.

(** C9 fails as stated: a resume declared as [application/rtf] is read
    by the plain-text fallback and persisted with the tag
    "unknown_file", which is none of the five listed values. *)
Lemma unknown_file_tag_persisted :
  map text_extraction_method
      (fst (run (sample_env jane_doe [] http_500)
              [FileChosen (Some rtf_file); SubmitClicked true true]
              initial_world))
  = [lit "unknown_file"]
  /\ ~ In (lit "unknown_file") spec_method_tags.
Proof.
  split.
  - vm_compute. reflexivity.
  - vm_compute. intros H.
    repeat (destruct H as [H|H]; [discriminate|]). exact H.
Qed.

(** C1. What the code does with a scanned PDF: the plain-text read
    reports the PDF signature, OCR produces the text, and the row handed
    to the [applications] table is tagged "pdf_extraction".  No run of
    the page persists the tag "ocr". *)
Theorem scanned_pdf_tagged_pdf_extraction :
  (let out := run (sample_env pdf_header jane_doe (FetchRejected Thrown))
                [FileChosen (Some scanned_pdf); SubmitClicked true true]
                initial_world in
   In (ERecognize scanned_pdf) (trace (snd out))
   /\ map text_extraction_method (fst out) = [lit "pdf_extraction"]
   /\ map resume_txt (fst out) = [lit "Jane DoeSoftware Engineer"])
  /\ (forall env evs,
        Forall (fun row => text_extraction_method row <> lit "ocr")
               (fst (run env evs initial_world))).
Proof.
  split.
  - vm_compute. repeat split. tauto.
  - intros env evs.
    eapply Forall_impl;
      [|apply run_rows_tagged, initial_world_invariant].
    intros row H Heq. cbv beta in H. rewrite Heq in H. vm_compute in H.
    repeat (destruct H as [H|H]; [discriminate|]). exact H.
Qed.

(** ** The PDF extractor *)

Lemma sufficient_text_guard (t : jsstring) :
  truthy t && (len (trim t) >? 100) = (100 <? len (trim t)).
Proof.
  destruct t as [|c r]; [reflexivity|].
  simpl truthy. rewrite andb_true_l. apply Z.gtb_ltb.
Qed.

Lemma extractTextFromTextFile_trace (env : Env) (file : File) (w : World) :
  trace (snd (extractTextFromTextFile env file w))
  = trace w ++ [EReadAsText file].
Proof.
  unfold extractTextFromTextFile, bind, call.
  destruct (readAsText env _ file) as [text|e]; [|reflexivity].
  destruct (startsWith text (lit "%PDF-")); reflexivity.
Qed.

Lemma extractTextFromPdfWithOcr_trace (env : Env) (file : File) (w : World) :
  exists calls,
    trace (snd (extractTextFromPdfWithOcr env file w))
    = trace w ++ ECreateWorker :: calls.
Proof.
  assert (P : preserves
                (try_finally (recognizeWithWorker env file)
                   (terminateWorker env ;; setIsOcrProcessing false))).
  { unfold recognizeWithWorker, terminateWorker. repeat frame_step. }
  unfold extractTextFromPdfWithOcr.
  remember (try_finally (recognizeWithWorker env file)
              (terminateWorker env ;; setIsOcrProcessing false)) as body.
  unfold bind, attempt, call, setIsOcrProcessing, setOcrProgress, modify.
  simpl.
  destruct (createWorker env (List.length (trace w))) as [u|e].
  - match goal with |- context [body ?w2] =>
      destruct (P w2) as (_ & _ & _ & _ & _ & calls & Hc)
    end.
    exists calls. rewrite Hc. simpl. now rewrite <- app_assoc.
  - exists []. reflexivity.
Qed.

Lemma ocrFallback_trace (env : Env) (file : File) (w : World) :
  exists calls,
    trace (snd (ocrFallback env file w)) = trace w ++ ECreateWorker :: calls.
Proof.
  assert (Step : forall w0 calls0,
            trace w0 = trace w ++ ECreateWorker :: calls0 ->
            exists calls,
              trace (snd (extractTextFromPdfWithOcr env file w0))
              = trace w ++ ECreateWorker :: calls).
  { intros w0 calls0 H0.
    destruct (preserves_extractTextFromPdfWithOcr env file w0)
      as (_ & _ & _ & _ & _ & calls & Hc).
    exists (calls0 ++ calls). rewrite Hc, H0, <- app_assoc. reflexivity. }
  unfold ocrFallback, try_catch.
  destruct (extractTextFromPdfWithOcr_trace env file w) as (c1 & H1).
  destruct (extractTextFromPdfWithOcr env file w) as [[r|e] w1];
    simpl in H1; [now exists c1|].
  destruct (Step w1 c1 H1) as (c2 & H2).
  destruct (extractTextFromPdfWithOcr env file w1) as [[r|e'] w2];
    simpl in H2; [now exists c2|].
  exact (Step w2 c2 H2).
Qed.

(** C2, as the code has it.  When the plain-text read of a PDF succeeds,
    the text is returned as it is, with no OCR call, when its trimmed
    length is more than 100; when the trimmed length is 100 or less
    (exactly 100 included) the extractor goes to OCR, whose first call
    creates the worker. *)
Theorem extractTextFromPdf_threshold (env : Env) (file : File) (w : World)
    (textResult : jsstring) (w1 : World) :
  extractTextFromTextFile env file w = (Ok textResult, w1) ->
  (100 < len (trim textResult) ->
     extractTextFromPdf env file w = (Ok textResult, w1)
     /\ trace w1 = trace w ++ [EReadAsText file])
  /\ (len (trim textResult) <= 100 ->
        extractTextFromPdf env file w = ocrFallback env file w1
        /\ exists calls,
             trace (snd (extractTextFromPdf env file w))
             = trace w ++ EReadAsText file :: ECreateWorker :: calls).
Proof.
  intros Hread.
  pose proof (extractTextFromTextFile_trace env file w) as Ht.
  rewrite Hread in Ht. simpl in Ht.
  split.
  - intros Hlong. split; [|exact Ht].
    unfold extractTextFromPdf, try_catch, bind. rewrite Hread.
    rewrite sufficient_text_guard.
    replace (100 <? len (trim textResult)) with true
      by (symmetry; now apply Z.ltb_lt).
    reflexivity.
  - intros Hshort.
    assert (Heq : extractTextFromPdf env file w = ocrFallback env file w1).
    { unfold extractTextFromPdf, ocrFallback, try_catch, bind.
      rewrite Hread. rewrite sufficient_text_guard.
      replace (100 <? len (trim textResult)) with false
        by (symmetry; now apply Z.ltb_ge).
      destruct (extractTextFromPdfWithOcr env file w1) as [[r|e] w2];
        [reflexivity|].
      destruct (message_is e (lit "PDF_BINARY_DATA")); reflexivity. }
    split; [exact Heq|].
    rewrite Heq.
    destruct (ocrFallback_trace env file w1) as (calls & Hc).
    exists calls. rewrite Hc, Ht, <- app_assoc. reflexivity.
Qed.

(** A text layer of 5,000 letters is returned as it is. *)
Lemma extractTextFromPdf_threshold_witness :
  extractTextFromPdf (sample_env (repeat 97 5000) jane_doe http_500)
    scanned_pdf initial_world
  = (Ok (repeat 97 5000), mkWorld initial_state [EReadAsText scanned_pdf]).
Proof.
  refine (proj1 (proj1
    (extractTextFromPdf_threshold
       (sample_env (repeat 97 5000) jane_doe http_500) scanned_pdf
       initial_world (repeat 97 5000)
       (mkWorld initial_state [EReadAsText scanned_pdf]) _) _)).
  - vm_compute. reflexivity.
  - vm_compute. reflexivity.
Defined.

(** C2 fails as stated: a direct text of exactly 100 characters is not
    returned; the extractor goes to OCR and returns what OCR recognized. *)
Lemma hundred_characters_go_to_ocr :
  let env := sample_env hundred_letters (lit "OCR") http_500 in
  extractTextFromTextFile env scanned_pdf initial_world
  = (Ok hundred_letters, mkWorld initial_state [EReadAsText scanned_pdf])
  /\ len hundred_letters = 100
  /\ fst (extractTextFromPdf env scanned_pdf initial_world) = Ok (lit "OCR")
  /\ fst (extractTextFromPdf env scanned_pdf initial_world)
     <> Ok hundred_letters
  /\ In (ERecognize scanned_pdf)
        (trace (snd (extractTextFromPdf env scanned_pdf initial_world))).
Proof.
  vm_compute. repeat split; try discriminate. tauto.
Qed.

(** ** The AI enhancement client *)

(** C3, as the code has it.  [enhanceOcrResultWithAi] never throws and
    makes one request.  It returns the sanitized completion when the
    endpoint answers with an OK status and a string longer than half the
    input; in every other case (rejected request, error status,
    unparseable body, short or missing completion) it returns the
    sanitized input. *)
Theorem enhanceOcrResultWithAi_never_throws (env : Env) (text : jsstring)
    (w : World) :
  exists out w',
    enhanceOcrResultWithAi env text w = (Ok out, w')
    /\ state w' = state w
    /\ trace w' = trace w ++ [EFetch text]
    /\ (out = sanitizeText text
        \/ exists s,
             fetch_generate env (List.length (trace w)) text
             = FetchResponse true (BodyData (CompletionString s))
             /\ len text < 2 * len s
             /\ out = sanitizeText s)
    /\ (forall s,
          fetch_generate env (List.length (trace w)) text
          = FetchResponse true (BodyData (CompletionString s)) ->
          out = if 2 * len s >? len text
                then sanitizeText s else sanitizeText text)
    /\ (forall e,
          fetch_generate env (List.length (trace w)) text = FetchRejected e ->
          out = sanitizeText text)
    /\ (forall body,
          fetch_generate env (List.length (trace w)) text
          = FetchResponse false body ->
          out = sanitizeText text)
    /\ (forall e,
          fetch_generate env (List.length (trace w)) text
          = FetchResponse true (BodyUnparseable e) ->
          out = sanitizeText text).
Proof.
  unfold enhanceOcrResultWithAi, try_catch, bind, call, ret, throw.
  destruct (fetch_generate env (List.length (trace w)) text)
    as [e|ok body] eqn:Hreply.
  - eexists. eexists. split; [reflexivity|]. cbn [state trace].
    repeat split; try (intros; discriminate); auto.
  - destruct ok.
    + destruct body as [e| |[s|guard]].
      * eexists. eexists. split; [reflexivity|]. cbn [state trace].
        repeat split; try (intros; discriminate); auto.
      * eexists. eexists. split; [reflexivity|]. cbn [state trace].
        repeat split; try (intros; discriminate); auto.
      * destruct (truthy s && (2 * len s >? len text)) eqn:Hguard.
        -- apply andb_true_iff in Hguard. destruct Hguard as [_ Hlong].
           eexists. eexists. split; [reflexivity|]. cbn [state trace].
           repeat split; try (intros; discriminate).
           ++ right. exists s. repeat split.
              rewrite Z.gtb_ltb in Hlong. now apply Z.ltb_lt.
           ++ intros s' Hs'. injection Hs' as <-. now rewrite Hlong.
        -- eexists. eexists. split; [reflexivity|]. cbn [state trace].
           repeat split; try (intros; discriminate); auto.
           intros s' Hs'. injection Hs' as <-.
           destruct (2 * len s >? len text) eqn:Hlong; [|reflexivity].
           rewrite andb_true_r in Hguard.
           destruct s; [|discriminate].
           rewrite Z.gtb_ltb in Hlong. apply Z.ltb_lt in Hlong.
           unfold len in Hlong. simpl in Hlong. lia.
      * destruct guard.
        -- eexists. eexists. split; [reflexivity|]. cbn [state trace].
           repeat split; try (intros; discriminate); auto.
        -- eexists. eexists. split; [reflexivity|]. cbn [state trace].
           repeat split; try (intros; discriminate); auto.
    + eexists. eexists. split; [reflexivity|]. cbn [state trace].
      repeat split; try (intros; discriminate); auto.
Qed.

(** On an HTTP 500 the two-line OCR text comes back sanitized. *)
Lemma enhanceOcrResultWithAi_never_throws_witness :
  exists out w',
    enhanceOcrResultWithAi (sample_env [] [] http_500) jane_doe initial_world
    = (Ok out, w')
    /\ out = lit "Jane DoeSoftware Engineer".
Proof.
  destruct (enhanceOcrResultWithAi_never_throws
              (sample_env [] [] http_500) jane_doe initial_world)
    as (out & w' & H & _ & _ & _ & _ & _ & Hstatus & _).
  exists out, w'. split; [exact H|].
  rewrite (Hstatus _ eq_refl). vm_compute. reflexivity.
Defined.

(** C3 fails as stated: on an HTTP 500 the client does not return the
    input unchanged; it returns the input sanitized, here with its
    newline deleted. *)
Lemma enhance_error_returns_sanitized_text :
  fst (enhanceOcrResultWithAi (sample_env [] [] http_500) jane_doe
         initial_world)
  = Ok (lit "Jane DoeSoftware Engineer")
  /\ fst (enhanceOcrResultWithAi (sample_env [] [] http_500) jane_doe
            initial_world)
     <> Ok jane_doe.
Proof.
  vm_compute. split; [reflexivity|discriminate].
Qed.

(** A completion of exactly half the input's length is not accepted. *)
Example enhance_half_length_rejected :
  fst (enhanceOcrResultWithAi
         (sample_env [] []
            (FetchResponse true (BodyData (CompletionString (lit "xy")))))
         (lit "abcd") initial_world)
  = Ok (lit "abcd").
Proof. vm_compute. reflexivity. Qed.

(** ** The OCR adapter *)

(** C6. What the code does with an eight-page PDF whose engine reads
    every page: the adapter makes a single [recognize] call on the whole
    file, with no page limit, and returns the text of all eight pages. *)
Theorem ocr_returns_all_eight_pages :
  let out := extractTextFromPdfWithOcr
               (sample_env pdf_header eight_pages http_500)
               scanned_pdf initial_world in
  trace (snd out)
  = [ECreateWorker; ELoadLanguage (lit "eng"); EInitialize (lit "eng");
     ERecognize scanned_pdf; EFetch eight_pages; ETerminate]
  /\ fst out
     = Ok (lit "Page 1Page 2Page 3Page 4Page 5Page 6Page 7Page 8").
Proof.
  vm_compute. split; reflexivity.
Qed.

(** ** Further properties of the sanitizer *)

Lemma sanitizeText_sanitized (x : jsstring) : sanitized (sanitizeText x).
Proof.
  split; [apply sanitizeText_clean|apply sanitizeText_length].
Qed.

Lemma sanitized_fixed (t : jsstring) : sanitized t -> sanitizeText t = t.
Proof. intros [Hc Hl]. now apply sanitizeText_of_clean. Qed.

Lemma replace_each_delete_length (p : Z -> bool) (s : jsstring) :
  (List.length (replace_each p [] s) <= List.length s)%nat.
Proof.
  unfold replace_each.
  induction s as [|c r IH]; simpl; [lia|].
  destruct (p c); simpl; lia.
Qed.

Lemma replace_runs_unit_length (p : Z -> bool) (u : Z) (s : jsstring) :
  forall b,
    (List.length (replace_runs_from p [u] b s) <= List.length s)%nat.
Proof.
  induction s as [|c r IH]; intros b; simpl; [lia|].
  destruct (p c).
  - destruct b; simpl.
    + specialize (IH true). lia.
    + specialize (IH true). lia.
  - simpl. specialize (IH false). lia.
Qed.

(** The sanitizer never lengthens a string. *)
Theorem sanitizeText_never_longer (x : jsstring) :
  len (sanitizeText x) <= len x.
Proof.
  rewrite sanitizeText_pipeline, tab_replace_after_strip.
  unfold substring0, replace_runs, len.
  rewrite length_firstn.
  pose proof (replace_runs_unit_length is_space SPACE
                (replace_each is_control [] x) false).
  pose proof (replace_each_delete_length is_control x).
  lia.
Qed.

(** The strings the sanitizer leaves unchanged are exactly those of at
    most 100,000 code units with no control character, whose only
    whitespace is single plain spaces. *)
Theorem sanitizeText_fixed_points (s : jsstring) :
  sanitizeText s = s <-> sanitized s.
Proof.
  split.
  - intros H. rewrite <- H. apply sanitizeText_sanitized.
  - apply sanitized_fixed.
Qed.

Lemma sanitizeText_fixed_points_witness :
  sanitizeText (lit "Jane Doe") = lit "Jane Doe".
Proof.
  apply (proj2 (sanitizeText_fixed_points (lit "Jane Doe"))).
  split; vm_compute; [reflexivity|discriminate].
Defined.

Lemma clean_no_space_pair (pre post : jsstring) :
  forall b, clean_from b (pre ++ [SPACE; SPACE] ++ post) = false.
Proof.
  induction pre as [|c r IH]; intros b.
  - destruct b; reflexivity.
  - simpl. destruct (is_space c).
    + rewrite IH. now rewrite andb_false_r.
    + rewrite IH. now rewrite andb_false_r.
Qed.

Lemma clean_space_units (s : jsstring) :
  forall b, clean_from b s = true ->
  Forall (fun c => is_space c = true -> c = SPACE) s.
Proof.
  induction s as [|c r IH]; intros b H; constructor.
  - simpl in H. intros Hs. rewrite Hs in H.
    apply andb_true_iff in H. destruct H as [H _].
    apply andb_true_iff in H. destruct H as [_ H].
    now apply Z.eqb_eq.
  - simpl in H. destruct (is_space c);
      apply andb_true_iff in H; destruct H as [_ H]; eapply IH; eassumption.
Qed.

(** Whitespace in the output is normalized: every whitespace code unit of
    a sanitized string is the plain space U+0020 (no-break and other
    Unicode spaces included), and no two spaces are adjacent. *)
Theorem sanitizeText_single_spaces (x : jsstring) :
  Forall (fun c => is_space c = true -> c = SPACE) (sanitizeText x)
  /\ (forall pre post, sanitizeText x <> pre ++ [SPACE; SPACE] ++ post).
Proof.
  split.
  - apply (clean_space_units _ false), sanitizeText_clean.
  - intros pre post H.
    pose proof (sanitizeText_clean x) as Hc. rewrite H in Hc.
    rewrite clean_no_space_pair in Hc. discriminate.
Qed.

Lemma replace_runs_none (p : Z -> bool) (rep s : jsstring) :
  Forall (fun c => p c = false) s ->
  forall b, replace_runs_from p rep b s = s.
Proof.
  induction 1 as [|c r Hc _ IH]; intros b; simpl; [reflexivity|].
  now rewrite Hc, IH.
Qed.

(** A text with no control character and no whitespace is only
    truncated: the output is its first 100,000 code units. *)
Theorem sanitizeText_plain_text (x : jsstring) :
  Forall (fun c => is_control c = false /\ is_space c = false) x ->
  sanitizeText x = substring0 100000 x
  /\ len (sanitizeText x) = Z.min (len x) 100000.
Proof.
  intros H.
  assert (E : sanitizeText x = substring0 100000 x).
  { rewrite sanitizeText_pipeline, tab_replace_after_strip.
    rewrite (replace_each_none is_control)
      by (eapply Forall_impl; [|exact H]; simpl; tauto).
    unfold replace_runs.
    rewrite replace_runs_none
      by (eapply Forall_impl; [|exact H]; simpl; tauto).
    reflexivity. }
  split; [exact E|].
  rewrite E. unfold len, substring0. rewrite length_firstn. lia.
Qed.

Lemma sanitizeText_plain_text_witness :
  sanitizeText (lit "JaneDoe") = substring0 100000 (lit "JaneDoe")
  /\ len (sanitizeText (lit "JaneDoe")) = Z.min (len (lit "JaneDoe")) 100000.
Proof.
  apply (sanitizeText_plain_text (lit "JaneDoe")).
  vm_compute. repeat constructor.
Defined.

(** ** One run of the enhancement client and of the OCR adapter *)

Lemma enhance_run (env : Env) (text : jsstring) (w : World) :
  exists out,
    enhanceOcrResultWithAi env text w
    = (Ok out, mkWorld (state w) (trace w ++ [EFetch text]))
    /\ (out = sanitizeText text
        \/ exists s,
             fetch_generate env (List.length (trace w)) text
             = FetchResponse true (BodyData (CompletionString s))
             /\ len text < 2 * len s
             /\ out = sanitizeText s)
    /\ out
       = enhancement_result
           (fetch_generate env (List.length (trace w)) text) text.
Proof.
  unfold enhanceOcrResultWithAi, try_catch, bind, call, ret, throw,
    enhancement_result.
  destruct (fetch_generate env (List.length (trace w)) text)
    as [e|[|] [e| |[s|[|]]]] eqn:E;
    try (eexists; split; [reflexivity|split; [left|]; reflexivity]).
  destruct (truthy s && (2 * len s >? len text)) eqn:G.
  - apply andb_true_iff in G. destruct G as [_ G]. rewrite G.
    eexists. split; [reflexivity|]. split; [|reflexivity].
    right. exists s.
    rewrite Z.gtb_ltb in G. apply Z.ltb_lt in G. auto.
  - assert (G' : (2 * len s >? len text) = false).
    { destruct (2 * len s >? len text) eqn:Hlong; [|reflexivity].
      rewrite andb_true_r in G. destruct s; [|discriminate].
      rewrite Z.gtb_ltb in Hlong. apply Z.ltb_lt in Hlong.
      unfold len in Hlong. simpl in Hlong. lia. }
    rewrite G'.
    eexists. split; [reflexivity|split; [left|]; reflexivity].
Qed.

Lemma length_snoc {A} (l : list A) (a : A) :
  List.length (l ++ [a]) = S (List.length l).
Proof. rewrite length_app. simpl. lia. Qed.

Ltac norm_world :=
  cbv iota beta in *;
  cbn [state trace fst snd resumeFile coverLetter resumeText isPdfFile
       extractionMethod ocrProgress isOcrProcessing] in *.

Ltac run_leaf Hframe :=
  norm_world;
  do 3 eexists; split; [reflexivity|];
  split; [cbn [trace]; repeat rewrite <- app_assoc; reflexivity|];
  split; [reflexivity|];
  split; [exact Hframe|].

Lemma ocr_run (env : Env) (file : File) (w : World) :
  let n := List.length (trace w) in
  exists r w' calls,
    extractTextFromPdfWithOcr env file w = (r, w')
    /\ trace w' = trace w ++ calls
    /\ isOcrProcessing (state w') = false
    /\ frame w w'
    /\ ((exists e, createWorker env n = Throw e /\ r = Throw e
                   /\ calls = [ECreateWorker])
        \/ (createWorker env n = Ok tt
            /\ ((exists e, loadLanguage env (S n) eng = Throw e
                           /\ r = Throw e
                           /\ calls = [ECreateWorker; ELoadLanguage eng;
                                       ETerminate])
                \/ (loadLanguage env (S n) eng = Ok tt
                    /\ ((exists e, initialize env (S (S n)) eng = Throw e
                                   /\ r = Throw e
                                   /\ calls = [ECreateWorker;
                                               ELoadLanguage eng;
                                               EInitialize eng; ETerminate])
                        \/ (initialize env (S (S n)) eng = Ok tt
                            /\ ((exists e,
                                   recognize env (S (S (S n))) file = Throw e
                                   /\ r = Throw e
                                   /\ calls = [ECreateWorker;
                                               ELoadLanguage eng;
                                               EInitialize eng;
                                               ERecognize file; ETerminate])
                                \/ (exists text out,
                                      recognize env (S (S (S n))) file
                                      = Ok text
                                      /\ r = Ok out
                                      /\ calls = [ECreateWorker;
                                                  ELoadLanguage eng;
                                                  EInitialize eng;
                                                  ERecognize file;
                                                  EFetch text; ETerminate]
                                      /\ (out = sanitizeText text
                                          \/ exists s,
                                               fetch_generate env
                                                 (S (S (S (S n)))) text
                                               = FetchResponse true
                                                   (BodyData
                                                      (CompletionString s))
                                               /\ len text < 2 * len s
                                               /\ out = sanitizeText s)
                                      /\ out
                                         = enhancement_result
                                             (fetch_generate env
                                                (S (S (S (S n)))) text)
                                             text)))))))).
Proof.
  intros n.
  pose proof (preserves_extractTextFromPdfWithOcr env file w) as Hframe.
  unfold extractTextFromPdfWithOcr, bind, attempt, call, setIsOcrProcessing,
    setOcrProgress, modify in *.
  cbn [state trace fst snd resumeFile coverLetter resumeText isPdfFile
       extractionMethod ocrProgress isOcrProcessing] in *.
  fold n in Hframe |- *.
  destruct (createWorker env n) as [[]|e] eqn:Ecw.
  2:{ run_leaf Hframe. left. exists e. auto. }
  cbv iota beta in *.
  unfold try_finally, recognizeWithWorker, terminateWorker, try_catch,
    bind, call, setIsOcrProcessing, setOcrProgress, modify, throw in *.
  cbn [state trace fst snd resumeFile coverLetter resumeText isPdfFile
       extractionMethod ocrProgress isOcrProcessing] in *.
  rewrite ?length_snoc in *. fold n in Hframe |- *. fold eng in *.
  destruct (loadLanguage env (S n) eng) as [[]|e1] eqn:Ell.
  2:{ destruct (terminate env _) as [[]|e'];
        (run_leaf Hframe;
         right; split; [reflexivity|]; left; exists e1; auto). }
  destruct (initialize env (S (S n)) eng) as [[]|e2] eqn:Ein.
  2:{ destruct (terminate env _) as [[]|e'];
        (run_leaf Hframe;
         right; split; [reflexivity|]; right; split; [reflexivity|];
         left; exists e2; auto). }
  destruct (recognize env (S (S (S n))) file) as [text|e3] eqn:Erc.
  2:{ destruct (terminate env _) as [[]|e'];
        (run_leaf Hframe;
         right; split; [reflexivity|]; right; split; [reflexivity|];
         right; split; [reflexivity|]; left; exists e3; auto). }
  cbv iota beta in *.
  match type of Hframe with
  | context [enhanceOcrResultWithAi env text ?w0] =>
      destruct (enhance_run env text w0) as (out & Hrun & Hout & Hval)
  end.
  rewrite Hrun in *.
  cbn [state trace fst snd resumeFile coverLetter resumeText isPdfFile
       extractionMethod ocrProgress isOcrProcessing] in *.
  rewrite ?length_snoc in *. fold n in Hframe, Hout, Hval |- *.
  destruct (terminate env _) as [[]|e'];
    (run_leaf Hframe;
     right; split; [reflexivity|]; right; split; [reflexivity|];
     right; split; [reflexivity|]; right; exists text, out;
     repeat split; assumption).
Qed.

Lemma count_app (p : Event -> bool) (a b : list Event) :
  count p (a ++ b) = (count p a + count p b)%nat.
Proof. unfold count. now rewrite filter_app, length_app. Qed.

(** Worker lifecycle of the OCR adapter.  Every run creates the worker
    once and makes its service calls in the fixed order create, load
    language, initialize, recognize, enhance.  The calls are decided by
    the engine's answers: a call is made exactly when every engine call
    before it succeeded, so the run stops at the first engine call that
    throws; the model request carries the recognized text; and the worker
    is terminated exactly once, as the last call, when it was created and
    not at all otherwise.  The processing flag is cleared on every
    exit. *)
Theorem ocr_worker_lifecycle (env : Env) (file : File) (w : World) :
  exists calls,
    trace (snd (extractTextFromPdfWithOcr env file w)) = trace w ++ calls
    /\ ocr_call_sequence file calls
    /\ count is_createWorker calls = 1%nat
    /\ count is_terminate calls
       = match createWorker env (List.length (trace w)) with
         | Ok _ => 1%nat
         | Throw _ => 0%nat
         end
    /\ isOcrProcessing (state (snd (extractTextFromPdfWithOcr env file w)))
       = false
    /\ calls
       = ECreateWorker ::
         match createWorker env (List.length (trace w)) with
         | Throw _ => []
         | Ok _ =>
             ELoadLanguage eng ::
             match loadLanguage env (S (List.length (trace w))) eng with
             | Throw _ => [ETerminate]
             | Ok _ =>
                 EInitialize eng ::
                 match initialize env (S (S (List.length (trace w)))) eng
                 with
                 | Throw _ => [ETerminate]
                 | Ok _ =>
                     ERecognize file ::
                     match recognize env
                             (S (S (S (List.length (trace w))))) file
                     with
                     | Throw _ => [ETerminate]
                     | Ok text => [EFetch text; ETerminate]
                     end
                 end
             end
         end.
Proof.
  destruct (ocr_run env file w) as (r & w' & calls & Hrun & Ht & Hp & _ & H).
  rewrite Hrun. simpl snd. exists calls.
  split; [exact Ht|]. unfold ocr_call_sequence.
  destruct H as [(e & Hc & _ & ->)|[Hc H]]; rewrite Hc.
  { repeat split; auto. }
  destruct H as [(e & Hl & _ & ->)|[Hl H]]; rewrite Hl.
  { repeat split; auto. }
  destruct H as [(e & Hi & _ & ->)|[Hi H]]; rewrite Hi.
  { repeat split; auto. }
  destruct H as [(e & Hg & _ & ->)|(text & out & Hg & _ & -> & _)];
    rewrite Hg.
  { repeat split; auto 6. }
  repeat split; auto.
  right. right. right. right. now exists text.
Qed.

(** Outcome of the OCR adapter.  It throws the error of the first of
    [createWorker], [loadLanguage], [initialize] and [recognize] that
    throws.  When all four succeed it returns a sanitized text, whatever
    [terminate] does: the sanitized completion when the model endpoint
    answers with an OK status and a string longer than half the
    recognized text, and the sanitized recognized text in every other
    case. *)
Theorem ocr_outcome (env : Env) (file : File) (w : World) :
  let n := List.length (trace w) in
  let r := fst (extractTextFromPdfWithOcr env file w) in
  match createWorker env n with
  | Throw e => r = Throw e
  | Ok _ =>
      match loadLanguage env (S n) eng with
      | Throw e => r = Throw e
      | Ok _ =>
          match initialize env (S (S n)) eng with
          | Throw e => r = Throw e
          | Ok _ =>
              match recognize env (S (S (S n))) file with
              | Throw e => r = Throw e
              | Ok text =>
                  exists out,
                    r = Ok out
                    /\ sanitizeText out = out
                    /\ (out = sanitizeText text
                        \/ exists s,
                             fetch_generate env (S (S (S (S n)))) text
                             = FetchResponse true
                                 (BodyData (CompletionString s))
                             /\ len text < 2 * len s
                             /\ out = sanitizeText s)
                    /\ out
                       = match fetch_generate env (S (S (S (S n)))) text
                         with
                         | FetchResponse true
                             (BodyData (CompletionString s)) =>
                             if 2 * len s >? len text
                             then sanitizeText s
                             else sanitizeText text
                         | _ => sanitizeText text
                         end
              end
          end
      end
  end.
Proof.
  intros n r.
  destruct (ocr_run env file w) as (r' & w' & calls & Hrun & _ & _ & _ & H).
  assert (Hr : r = r') by (unfold r; now rewrite Hrun).
  fold n in H. rewrite Hr. clear Hr Hrun r.
  destruct H as [(e & Hc & -> & _)|[Hc H]]; rewrite Hc; [reflexivity|].
  destruct H as [(e & Hl & -> & _)|[Hl H]]; rewrite Hl; [reflexivity|].
  destruct H as [(e & Hi & -> & _)|[Hi H]]; rewrite Hi; [reflexivity|].
  destruct H
    as [(e & Hg & -> & _)|(text & out & Hg & -> & _ & Hout & Hval)];
    rewrite Hg; [reflexivity|].
  exists out. split; [reflexivity|].
  split; [|split; [exact Hout|exact Hval]].
  apply sanitized_fixed.
  destruct Hout as [->|(s & _ & _ & ->)]; apply sanitizeText_sanitized.
Qed.

(** ** The retries of the PDF extractor *)

Lemma extractTextFromPdf_cases (env : Env) (file : File) (w : World) :
  extractTextFromPdf env file w =
  match extractTextFromTextFile env file w with
  | (Ok t, w1) =>
      if 100 <? len (trim t) then (Ok t, w1) else ocrFallback env file w1
  | (Throw e, w1) => ocrRetry env file w1
  end.
Proof.
  unfold extractTextFromPdf, ocrFallback, ocrRetry, try_catch, bind.
  destruct (extractTextFromTextFile env file w) as [[t|e] w1].
  - rewrite sufficient_text_guard.
    destruct (100 <? len (trim t)); [reflexivity|].
    destruct (extractTextFromPdfWithOcr env file w1) as [[r|e] w2];
      [reflexivity|].
    destruct (message_is e (lit "PDF_BINARY_DATA")); reflexivity.
  - destruct (message_is e (lit "PDF_BINARY_DATA"));
      destruct (extractTextFromPdfWithOcr env file w1) as [[r|e'] w2];
      reflexivity.
Qed.

Lemma extractTextFromTextFile_cases (env : Env) (file : File) (w : World) :
  extractTextFromTextFile env file w =
  (match readAsText env (List.length (trace w)) file with
   | Ok raw =>
       if startsWith raw (lit "%PDF-") then Throw PDF_BINARY_DATA
       else Ok (sanitizeText raw)
   | Throw e => Throw e
   end,
   mkWorld (state w) (trace w ++ [EReadAsText file])).
Proof.
  unfold extractTextFromTextFile, bind, call.
  destruct (readAsText env _ file) as [raw|e]; [|reflexivity].
  destruct (startsWith raw (lit "%PDF-")); reflexivity.
Qed.

(** Any failure of the direct read of a PDF leads to OCR.  When the read
    throws, or gives a text that starts with the PDF signature, the
    extractor runs OCR, and runs it a second time if the first run
    throws; the read error itself is never returned. *)
Theorem extractTextFromPdf_unreadable_goes_to_ocr (env : Env) (file : File)
    (w : World) :
  (forall raw,
     readAsText env (List.length (trace w)) file = Ok raw ->
     startsWith raw (lit "%PDF-") = true) ->
  extractTextFromPdf env file w
  = ocrRetry env file (mkWorld (state w) (trace w ++ [EReadAsText file])).
Proof.
  intros H.
  rewrite extractTextFromPdf_cases, extractTextFromTextFile_cases.
  destruct (readAsText env _ file) as [raw|e]; [|reflexivity].
  now rewrite (H raw eq_refl).
Qed.

Lemma extractTextFromPdf_unreadable_goes_to_ocr_witness :
  extractTextFromPdf (sample_env pdf_header jane_doe http_500) scanned_pdf
    initial_world
  = ocrRetry (sample_env pdf_header jane_doe http_500) scanned_pdf
      (mkWorld (state initial_world)
         (trace initial_world ++ [EReadAsText scanned_pdf])).
Proof.
  apply (extractTextFromPdf_unreadable_goes_to_ocr
           (sample_env pdf_header jane_doe http_500) scanned_pdf
           initial_world).
  intros raw H. simpl in H. injection H as <-. vm_compute. reflexivity.
Defined.

Lemma ocr_one_worker (env : Env) (file : File) (w : World) :
  exists calls,
    trace (snd (extractTextFromPdfWithOcr env file w)) = trace w ++ calls
    /\ count is_createWorker calls = 1%nat
    /\ count is_readAsText calls = 0%nat.
Proof.
  destruct (ocr_run env file w) as (r & w' & calls & Hrun & Ht & _ & _ & H).
  rewrite Hrun. exists calls. split; [exact Ht|].
  destruct H as [(e & _ & _ & ->)|[_ H]]; [split; reflexivity|].
  destruct H as [(e & _ & _ & ->)|[_ H]]; [split; reflexivity|].
  destruct H as [(e & _ & _ & ->)|[_ H]]; [split; reflexivity|].
  destruct H as [(e & _ & _ & ->)|(text & out & _ & _ & -> & _)];
    split; reflexivity.
Qed.

(** [m] adds between [lo] and [hi] worker creations, and no read, to the
    trace. *)
Lemma worker_bounds_try_catch (env : Env) (file : File) (m : M jsstring)
    (lo hi : nat) :
  (forall w, exists calls,
     trace (snd (m w)) = trace w ++ calls
     /\ (lo <= count is_createWorker calls <= hi)%nat
     /\ count is_readAsText calls = 0%nat) ->
  forall w, exists calls,
    trace (snd (try_catch m (fun _ => extractTextFromPdfWithOcr env file) w))
    = trace w ++ calls
    /\ (lo <= count is_createWorker calls <= S hi)%nat
    /\ count is_readAsText calls = 0%nat.
Proof.
  intros Hm w. unfold try_catch.
  destruct (Hm w) as (c1 & H1 & B1 & R1).
  destruct (m w) as [[r|e] w1]; simpl in H1.
  - exists c1. split; [exact H1|]. split; [lia|exact R1].
  - destruct (ocr_one_worker env file w1) as (c2 & H2 & B2 & R2).
    exists (c1 ++ c2). rewrite H2, H1, app_assoc, !count_app.
    split; [reflexivity|]. split; lia.
Qed.

Lemma ocrRetry_workers (env : Env) (file : File) (w : World) :
  exists calls,
    trace (snd (ocrRetry env file w)) = trace w ++ calls
    /\ (1 <= count is_createWorker calls <= 2)%nat
    /\ count is_readAsText calls = 0%nat.
Proof.
  apply (worker_bounds_try_catch env file
           (extractTextFromPdfWithOcr env file) 1 1).
  intros w0. destruct (ocr_one_worker env file w0) as (c & H & B & R).
  exists c. split; [exact H|]. split; [lia|exact R].
Qed.

Lemma ocrFallback_workers (env : Env) (file : File) (w : World) :
  exists calls,
    trace (snd (ocrFallback env file w)) = trace w ++ calls
    /\ (1 <= count is_createWorker calls <= 3)%nat
    /\ count is_readAsText calls = 0%nat.
Proof.
  apply (worker_bounds_try_catch env file (ocrRetry env file) 1 2).
  apply ocrRetry_workers.
Qed.

(** One upload reads the PDF exactly once and runs OCR at most three
    times: the read is the first service call and no later call is a
    read, and the nested [catch] blocks of [extractTextFromPdf] start a
    new OCR run, with a new worker, each time the previous run throws.
    Three runs do happen, for instance when the direct text is short and
    no worker can be created. *)
Theorem extractTextFromPdf_at_most_three_ocr_runs :
  (forall env file w,
     exists calls,
       trace (snd (extractTextFromPdf env file w))
       = trace w ++ EReadAsText file :: calls
       /\ (count is_createWorker calls <= 3)%nat
       /\ count is_readAsText calls = 0%nat
       /\ count is_readAsText (EReadAsText file :: calls) = 1%nat)
  /\ count is_createWorker
       (trace (snd (extractTextFromPdf no_worker_env scanned_pdf
                      initial_world)))
     = 3%nat.
Proof.
  split; [|vm_compute; reflexivity].
  intros env file w.
  assert (Hone : forall c,
            count is_readAsText c = 0%nat ->
            count is_readAsText (EReadAsText file :: c) = 1%nat).
  { intros c Hc. unfold count in *. simpl. now rewrite Hc. }
  rewrite extractTextFromPdf_cases, extractTextFromTextFile_cases.
  set (w1 := mkWorld (state w) (trace w ++ [EReadAsText file])).
  assert (Hw1 : forall c, trace w1 ++ c = trace w ++ EReadAsText file :: c).
  { intros c. unfold w1. simpl. now rewrite <- app_assoc. }
  destruct (match readAsText env (List.length (trace w)) file with
            | Ok raw =>
                if startsWith raw (lit "%PDF-") then Throw PDF_BINARY_DATA
                else Ok (sanitizeText raw)
            | Throw e => Throw e
            end) as [t|e].
  - destruct (100 <? len (trim t)).
    + exists []. unfold w1. simpl.
      split; [reflexivity|]. split; [unfold count; simpl; lia|].
      split; reflexivity.
    + destruct (ocrFallback_workers env file w1) as (c & H & B & R).
      exists c. rewrite H, Hw1. split; [reflexivity|].
      split; [lia|]. split; [exact R|now apply Hone].
  - destruct (ocrRetry_workers env file w1) as (c & H & B & R).
    exists c. rewrite H, Hw1. split; [reflexivity|].
    split; [lia|]. split; [exact R|now apply Hone].
Qed.

(** ** What the extractors return *)

Lemma returns_ret {A} (P : A -> Prop) (a : A) : P a -> returns P (ret a).
Proof. intros H w a' w' E. injection E as <- _. exact H. Qed.

Lemma returns_throw {A} (P : A -> Prop) (e : JsError) :
  returns P (@throw A e).
Proof. intros w a w' E. discriminate. Qed.

Lemma returns_bind {A B} (P : B -> Prop) (m : M A) (k : A -> M B) :
  (forall a, returns P (k a)) -> returns P (bind m k).
Proof.
  intros Hk w b w' E. unfold bind in E.
  destruct (m w) as [[a|e] w1]; [|discriminate].
  eapply Hk. exact E.
Qed.

Lemma returns_bind_with {A B} (Q : A -> Prop) (P : B -> Prop) (m : M A)
    (k : A -> M B) :
  returns Q m -> (forall a, Q a -> returns P (k a)) -> returns P (bind m k).
Proof.
  intros Hm Hk w b w' E. unfold bind in E.
  destruct (m w) as [[a|e] w1] eqn:Em; [|discriminate].
  eapply Hk; [|exact E]. eapply Hm. exact Em.
Qed.

Lemma returns_try_catch {A} (P : A -> Prop) (m : M A) (h : JsError -> M A) :
  returns P m -> (forall e, returns P (h e)) -> returns P (try_catch m h).
Proof.
  intros Hm Hh w a w' E. unfold try_catch in E.
  destruct (m w) as [[a1|e] w1] eqn:Em.
  - injection E as <- _. eapply Hm. exact Em.
  - eapply Hh. exact E.
Qed.

Lemma returns_try_finally {A} (P : A -> Prop) (m : M A) (f : M unit) :
  returns P m -> returns P (try_finally m f).
Proof.
  intros Hm w a w' E. unfold try_finally in E.
  destruct (m w) as [r w1] eqn:Em.
  destruct (f w1) as [[u|e] w2]; [|discriminate].
  injection E as -> _. eapply Hm. exact Em.
Qed.

Lemma returns_enhanceOcrResultWithAi (env : Env) (text : jsstring) :
  returns sanitized (enhanceOcrResultWithAi env text).
Proof.
  intros w a w' E.
  destruct (enhance_run env text w) as (out & Hrun & Hout & _).
  rewrite Hrun in E. injection E as <- _.
  destruct Hout as [->|(s & _ & _ & ->)]; apply sanitizeText_sanitized.
Qed.

Lemma returns_extractTextFromTextFile (env : Env) (file : File) :
  returns sanitized (extractTextFromTextFile env file).
Proof.
  unfold extractTextFromTextFile. apply returns_bind. intros text.
  destruct (startsWith text (lit "%PDF-")).
  - apply returns_throw.
  - apply returns_ret, sanitizeText_sanitized.
Qed.

Lemma returns_extractTextFromPdfWithOcr (env : Env) (file : File) :
  returns sanitized (extractTextFromPdfWithOcr env file).
Proof.
  unfold extractTextFromPdfWithOcr, recognizeWithWorker.
  do 2 (apply returns_bind; intros ?).
  apply returns_bind. intros [u|e].
  - apply returns_try_finally.
    do 4 (apply returns_bind; intros ?).
    apply returns_enhanceOcrResultWithAi.
  - apply returns_bind. intros ?. apply returns_throw.
Qed.

Lemma returns_extractTextFromPdf (env : Env) (file : File) :
  returns sanitized (extractTextFromPdf env file).
Proof.
  unfold extractTextFromPdf.
  apply returns_try_catch;
    [|intros ?; apply returns_extractTextFromPdfWithOcr].
  apply returns_try_catch.
  - apply (returns_bind_with sanitized);
      [apply returns_extractTextFromTextFile|].
    intros t Ht.
    destruct (truthy t && (len (trim t) >? 100)).
    + now apply returns_ret.
    + apply returns_extractTextFromPdfWithOcr.
  - intros e. destruct (message_is e (lit "PDF_BINARY_DATA"));
      apply returns_extractTextFromPdfWithOcr.
Qed.

Lemma returns_extractTextFromWordDocument (env : Env) (file : File) :
  returns sanitized (extractTextFromWordDocument env file).
Proof.
  unfold extractTextFromWordDocument.
  do 2 (apply returns_bind; intros ?).
  apply returns_try_finally.
  do 6 (apply returns_bind; intros ?).
  apply returns_ret, sanitizeText_sanitized.
Qed.

Lemma returns_extractByType (env : Env) (file : File) :
  returns sanitized (extractByType env file).
Proof.
  unfold extractByType.
  destruct (isPdf file);
    [apply returns_bind; intros ?; apply returns_extractTextFromPdf|].
  destruct (isWordDoc file);
    [apply returns_bind; intros ?;
     apply returns_extractTextFromWordDocument|].
  destruct (string_eqb (type file) (lit "text/plain")
            || endsWith (name file) (lit ".txt"));
    apply returns_bind; intros ?; apply returns_extractTextFromTextFile.
Qed.

(** Every text an extractor hands to the upload handler has already been
    sanitized, whichever route produced it (plain read, direct PDF text,
    OCR with or without enhancement, Word conversion): it has at most
    100,000 code units and no control character, and sanitizing it again
    changes nothing. *)
Theorem extracted_text_is_sanitized (env : Env) (file : File) (w : World)
    (text : jsstring) (w' : World) :
  extractByType env file w = (Ok text, w') ->
  sanitizeText text = text
  /\ len text <= 100000
  /\ Forall (fun c => is_control c = false) text.
Proof.
  intros H.
  pose proof (returns_extractByType env file w text w' H) as [Hc Hl].
  split; [now apply sanitized_fixed|]. split; [exact Hl|].
  eapply Forall_impl; [|apply (clean_units _ false Hc)].
  simpl. tauto.
Qed.

Lemma extracted_text_is_sanitized_witness :
  sanitizeText (lit "Jane DoeSoftware Engineer")
  = lit "Jane DoeSoftware Engineer"
  /\ len (lit "Jane DoeSoftware Engineer") <= 100000
  /\ Forall (fun c => is_control c = false)
       (lit "Jane DoeSoftware Engineer").
Proof.
  refine (extracted_text_is_sanitized (sample_env jane_doe [] http_500)
            text_file initial_world (lit "Jane DoeSoftware Engineer") _ _).
  vm_compute. reflexivity.
Defined.

(** ** The Word extractor *)

Lemma substantial_text_guard (t : jsstring) :
  truthy t && (len t >? 100) = (100 <? len t).
Proof.
  destruct t as [|c r]; [reflexivity|].
  simpl truthy. rewrite andb_true_l. apply Z.gtb_ltb.
Qed.

(** A Word document that converts.  The extractor returns a text and
    clears the processing flag.  A converted text of 100 code units or
    fewer is returned sanitized and the model endpoint is not contacted;
    a longer one is sent to the endpoint once, and the result is the
    sanitized completion when the endpoint answers with an OK status and
    a string longer than half the text, the sanitized converted text in
    every other case. *)
Theorem word_document_enhancement (env : Env) (file : File) (w : World)
    (text : jsstring) :
  let n := List.length (trace w) in
  readAsArrayBuffer env n file = Ok tt ->
  mammoth_extractRawText env (S n) file = Ok text ->
  exists out w',
    extractTextFromWordDocument env file w = (Ok out, w')
    /\ isOcrProcessing (state w') = false
    /\ (len text <= 100 ->
          out = sanitizeText text
          /\ trace w' = trace w ++ [EReadAsArrayBuffer file; EMammoth file])
    /\ (100 < len text ->
          trace w'
          = trace w ++ [EReadAsArrayBuffer file; EMammoth file; EFetch text]
          /\ (out = sanitizeText text
              \/ exists s,
                   fetch_generate env (S (S n)) text
                   = FetchResponse true (BodyData (CompletionString s))
                   /\ len text < 2 * len s
                   /\ out = sanitizeText s)
          /\ out
             = match fetch_generate env (S (S n)) text with
               | FetchResponse true (BodyData (CompletionString s)) =>
                   if 2 * len s >? len text
                   then sanitizeText s
                   else sanitizeText text
               | _ => sanitizeText text
               end).
Proof.
  intros n Hread Hconv.
  unfold extractTextFromWordDocument, try_finally, bind, call,
    setIsOcrProcessing, setOcrProgress, modify, ret.
  norm_world. rewrite ?length_snoc. fold n.
  rewrite Hread. norm_world. rewrite ?length_snoc. fold n. rewrite Hconv. norm_world.
  rewrite substantial_text_guard.
  destruct (100 <? len text) eqn:G.
  - unfold try_catch.
    match goal with
    | |- context [enhanceOcrResultWithAi env text ?w0] =>
        destruct (enhance_run env text w0) as (out & Hrun & Hout & Hval)
    end.
    rewrite Hrun. norm_world.
    rewrite ?length_snoc in Hout, Hval. fold n in Hout, Hval.
    apply Z.ltb_lt in G.
    assert (Hfix : sanitizeText out = out).
    { apply sanitized_fixed.
      destruct Hout as [->|(s & _ & _ & ->)]; apply sanitizeText_sanitized. }
    eexists. eexists. split; [reflexivity|]. split; [reflexivity|].
    split; [lia|]. intros _. rewrite Hfix. split; [|split].
    + cbn [trace]. repeat rewrite <- app_assoc. reflexivity.
    + exact Hout.
    + exact Hval.
  - apply Z.ltb_ge in G.
    eexists. eexists. split; [reflexivity|]. split; [reflexivity|].
    split; [|lia]. intros _. split; [reflexivity|].
    cbn [trace]. repeat rewrite <- app_assoc. reflexivity.
Qed.

(** A corrupt or unreadable Word document.  When reading the file or the
    conversion throws, the extractor throws that same error, clears the
    processing flag and never contacts the model endpoint. *)
Theorem word_document_failure (env : Env) (file : File) (w : World)
    (e : JsError) :
  let n := List.length (trace w) in
  readAsArrayBuffer env n file = Throw e
  \/ (readAsArrayBuffer env n file = Ok tt
      /\ mammoth_extractRawText env (S n) file = Throw e) ->
  exists w',
    extractTextFromWordDocument env file w = (Throw e, w')
    /\ isOcrProcessing (state w') = false
    /\ count is_fetch (trace w') = count is_fetch (trace w).
Proof.
  intros n H.
  unfold extractTextFromWordDocument, try_finally, bind, call,
    setIsOcrProcessing, setOcrProgress, modify, ret.
  norm_world. rewrite ?length_snoc. fold n.
  destruct H as [Hread|[Hread Hconv]]; rewrite Hread; norm_world.
  - eexists. split; [reflexivity|]. split; [reflexivity|].
    cbn [trace]. rewrite count_app. unfold count at 2. simpl. lia.
  - rewrite ?length_snoc. fold n. rewrite Hconv. norm_world.
    eexists. split; [reflexivity|]. split; [reflexivity|].
    cbn [trace]. rewrite !count_app. unfold count at 2 3. simpl. lia.
Qed.

(** A converted text of 150 letters whose completion of 80 letters is
    accepted. *)
Lemma word_document_enhancement_witness :
  exists out w',
    extractTextFromWordDocument (converter_env long_letters accepting_reply)
      corrupt_docx initial_world = (Ok out, w')
    /\ out = completion_letters
    /\ trace w'
       = [EReadAsArrayBuffer corrupt_docx; EMammoth corrupt_docx;
          EFetch long_letters].
Proof.
  destruct (word_document_enhancement
              (converter_env long_letters accepting_reply) corrupt_docx
              initial_world long_letters eq_refl eq_refl)
    as (out & w' & Hrun & _ & _ & Hlong).
  exists out, w'. split; [exact Hrun|].
  assert (H : 100 < len long_letters) by (vm_compute; reflexivity).
  destruct (Hlong H) as (Ht & _ & Hval).
  split; [|exact Ht].
  rewrite Hval. vm_compute. reflexivity.
Defined.

Lemma word_document_failure_witness :
  exists w',
    extractTextFromWordDocument (sample_env [] [] http_500) corrupt_docx
      initial_world = (Throw zip_error, w')
    /\ isOcrProcessing (state w') = false
    /\ count is_fetch (trace w') = count is_fetch (trace initial_world).
Proof.
  apply (word_document_failure (sample_env [] [] http_500) corrupt_docx
           initial_world zip_error).
  right. split; reflexivity.
Defined.

(** ** Uploads through the plain-text reader *)

Lemma text_route (env : Env) (file : File) (w : World) (raw : jsstring) :
  size file <= 10 * 1024 * 1024 ->
  isPdf file = false ->
  isWordDoc file = false ->
  readAsText env (List.length (trace w)) file = Ok raw ->
  exists w',
    handleFileChange env (Some file) w = (Ok tt, w')
    /\ trace w' = trace w ++ [EReadAsText file]
    /\ resumeFile (state w') = Some file
    /\ isPdfFile (state w') = false
    /\ (if startsWith raw (lit "%PDF-")
        then extractionMethod (state w') = lit "failed"
             /\ resumeText (state w') = fallbackText env file
        else extractionMethod (state w') = dispatch_tag file
             /\ resumeText (state w') = sanitizeText raw).
Proof.
  intros Hsize Hpdf Hword Hread.
  rewrite (handleFileChange_unfold env file w Hsize).
  unfold extractByType, dispatch_tag, selected. rewrite Hpdf, Hword.
  destruct (string_eqb (type file) (lit "text/plain")
            || endsWith (name file) (lit ".txt"));
    unfold bind, setIsPdfFile, setResumeFile, setExtractionMethod,
      setResumeText, modify;
    norm_world;
    rewrite extractTextFromTextFile_cases; norm_world;
    rewrite Hread;
    destruct (startsWith raw (lit "%PDF-"));
    eexists; (split; [reflexivity|]); norm_world; repeat split.
Qed.

(** A PDF uploaded under a name and type that are not a PDF's.  The file
    is read as plain text, the reader reports the PDF signature, and
    since only the PDF branch falls back to OCR the upload ends with the
    tag "failed" and the placeholder text, after a single read and no OCR
    call. *)
Theorem misdeclared_pdf_fails_without_ocr (env : Env) (file : File)
    (w : World) (raw : jsstring) :
  size file <= 10 * 1024 * 1024 ->
  isPdf file = false ->
  isWordDoc file = false ->
  readAsText env (List.length (trace w)) file = Ok raw ->
  startsWith raw (lit "%PDF-") = true ->
  exists w',
    handleFileChange env (Some file) w = (Ok tt, w')
    /\ trace w' = trace w ++ [EReadAsText file]
    /\ extractionMethod (state w') = lit "failed"
    /\ resumeText (state w') = fallbackText env file.
Proof.
  intros Hsize Hpdf Hword Hread Hsig.
  destruct (text_route env file w raw Hsize Hpdf Hword Hread)
    as (w' & H & Ht & _ & _ & Hcase).
  rewrite Hsig in Hcase. destruct Hcase as [Hm Hx].
  exists w'. auto.
Qed.

Lemma misdeclared_pdf_fails_without_ocr_witness :
  exists w',
    handleFileChange (sample_env pdf_header jane_doe http_500)
      (Some misnamed_pdf) initial_world = (Ok tt, w')
    /\ trace w' = trace initial_world ++ [EReadAsText misnamed_pdf]
    /\ extractionMethod (state w') = lit "failed"
    /\ resumeText (state w')
       = fallbackText (sample_env pdf_header jane_doe http_500) misnamed_pdf.
Proof.
  apply (misdeclared_pdf_fails_without_ocr
           (sample_env pdf_header jane_doe http_500) misnamed_pdf
           initial_world pdf_header).
  - simpl. lia.
  - vm_compute. reflexivity.
  - vm_compute. reflexivity.
  - reflexivity.
  - vm_compute. reflexivity.
Defined.

(** A plain-text upload.  For a file that is neither a PDF nor a Word
    document, within the size limit, whose content does not start with
    the PDF signature, the handler makes one read and no other service
    call, stores the sanitized content as the resume text, and tags it
    "text_file" (type [text/plain] or name ending in [.txt]) or
    "unknown_file". *)
Theorem plain_text_upload (env : Env) (file : File) (w : World)
    (raw : jsstring) :
  size file <= 10 * 1024 * 1024 ->
  isPdf file = false ->
  isWordDoc file = false ->
  readAsText env (List.length (trace w)) file = Ok raw ->
  startsWith raw (lit "%PDF-") = false ->
  exists w',
    handleFileChange env (Some file) w = (Ok tt, w')
    /\ trace w' = trace w ++ [EReadAsText file]
    /\ resumeText (state w') = sanitizeText raw
    /\ extractionMethod (state w')
       = (if string_eqb (type file) (lit "text/plain")
             || endsWith (name file) (lit ".txt")
          then lit "text_file" else lit "unknown_file")
    /\ resumeFile (state w') = Some file
    /\ isPdfFile (state w') = false.
Proof.
  intros Hsize Hpdf Hword Hread Hsig.
  destruct (text_route env file w raw Hsize Hpdf Hword Hread)
    as (w' & H & Ht & Hf & Hp & Hcase).
  rewrite Hsig in Hcase. destruct Hcase as [Hm Hx].
  exists w'. repeat split; auto.
  rewrite Hm. unfold dispatch_tag. now rewrite Hpdf, Hword.
Qed.

Lemma plain_text_upload_witness :
  exists w',
    handleFileChange (sample_env jane_doe [] http_500) (Some text_file)
      initial_world = (Ok tt, w')
    /\ trace w' = trace initial_world ++ [EReadAsText text_file]
    /\ resumeText (state w') = sanitizeText jane_doe
    /\ extractionMethod (state w')
       = (if string_eqb (type text_file) (lit "text/plain")
             || endsWith (name text_file) (lit ".txt")
          then lit "text_file" else lit "unknown_file")
    /\ resumeFile (state w') = Some text_file
    /\ isPdfFile (state w') = false.
Proof.
  apply (plain_text_upload (sample_env jane_doe [] http_500) text_file
           initial_world jane_doe).
  - simpl. lia.
  - vm_compute. reflexivity.
  - vm_compute. reflexivity.
  - reflexivity.
  - vm_compute. reflexivity.
Defined.

(** The size gate.  A file of more than 10 MiB is not read: the handler
    returns at once, makes no service call and leaves every cell of the
    form, a previously selected file and its text included, as it was. *)
Theorem handleFileChange_size_gate (env : Env) (file : File) (w : World) :
  10 * 1024 * 1024 < size file ->
  handleFileChange env (Some file) w = (Ok tt, w).
Proof.
  intros H. unfold handleFileChange.
  replace (size file >? 10 * 1024 * 1024) with true; [reflexivity|].
  symmetry. rewrite Z.gtb_ltb. now apply Z.ltb_lt.
Qed.

Lemma handleFileChange_size_gate_witness :
  handleFileChange offline_env (Some oversize_pdf) initial_world
  = (Ok tt, initial_world).
Proof.
  apply (handleFileChange_size_gate offline_env oversize_pdf initial_world).
  simpl. lia.
Defined.

(** ** What the persisted rows say about the file *)

Lemma dispatch_tag_truthy (file : File) : truthy (dispatch_tag file) = true.
Proof.
  unfold dispatch_tag.
  destruct (isPdf file); [reflexivity|].
  destruct (isWordDoc file); [reflexivity|].
  destruct (string_eqb (type file) (lit "text/plain")
            || endsWith (name file) (lit ".txt")); reflexivity.
Qed.

Lemma initial_world_selection : selection_invariant initial_world.
Proof. intros file H. discriminate. Qed.

Lemma handleFileChange_selection (env : Env) (files0 : option File)
    (w : World) :
  selection_invariant w ->
  selection_invariant (snd (handleFileChange env files0 w)).
Proof.
  intros Hinv.
  destruct files0 as [file|]; [|exact Hinv].
  destruct (Z.le_gt_cases (size file) (10 * 1024 * 1024)) as [Hle|Hgt].
  - destruct (handleFileChange_outcome env file w Hle)
      as (w' & H & Hf & Hp & _ & Hcase).
    rewrite H. simpl. intros f Hsel.
    rewrite Hf in Hsel. injection Hsel as <-.
    split; [exact Hle|]. split; [exact Hp|].
    destruct Hcase as [(text & w1 & _ & Hm & _)|(e & w1 & _ & Hm & _)];
      rewrite Hm; tauto.
  - unfold handleFileChange.
    replace (size file >? 10 * 1024 * 1024) with true; [exact Hinv|].
    symmetry. rewrite Z.gtb_ltb. now apply Z.ltb_lt.
Qed.

Lemma handleSubmit_selection (checks_pass insert_ok : bool) (w : World) :
  selection_invariant w ->
  selection_invariant (snd (handleSubmit checks_pass insert_ok w))
  /\ (forall row,
        fst (handleSubmit checks_pass insert_ok w) = Some row ->
        exists file,
          resumeFile (state w) = Some file
          /\ row = applicationRow (state w) file).
Proof.
  intros Hinv. unfold handleSubmit.
  destruct (resumeFile (state w)) as [file|] eqn:Hf;
    [|split; [exact Hinv|discriminate]].
  destruct checks_pass; [|split; [exact Hinv|discriminate]].
  destruct insert_ok; simpl.
  - split; [intros f H; discriminate|].
    intros row Hr. injection Hr as <-. now exists file.
  - split; [exact Hinv|].
    intros row Hr. injection Hr as <-. now exists file.
Qed.

Lemma run_rows_selected (env : Env) (evs : list UiEvent) :
  forall w, selection_invariant w ->
  Forall (fun row =>
            exists s file,
              row = applicationRow s file
              /\ size file <= 10 * 1024 * 1024
              /\ isPdfFile s = isPdf file
              /\ (extractionMethod s = dispatch_tag file
                  \/ extractionMethod s = lit "failed"))
         (fst (run env evs w)).
Proof.
  induction evs as [|ev rest IH]; intros w Hinv; [constructor|].
  destruct ev as [files0|checks_pass insert_ok]; simpl.
  - pose proof (handleFileChange_selection env files0 w Hinv) as H1.
    destruct (handleFileChange env files0 w) as [r w1]. simpl in H1.
    apply IH. exact H1.
  - destruct (handleSubmit_selection checks_pass insert_ok w Hinv)
      as [H1 H2].
    destruct (handleSubmit checks_pass insert_ok w) as [row w1] eqn:Hs.
    simpl in H1, H2. specialize (IH w1 H1).
    destruct (run env rest w1) as [rows w2]. simpl in *.
    destruct row as [r|]; [|exact IH].
    constructor; [|exact IH].
    destruct (H2 r eq_refl) as (file & Hf & ->).
    exists (state w), file. split; [reflexivity|]. now apply Hinv.
Qed.

(** The size gate holds end to end, and the PDF flag is accurate: every
    row handed to the [applications] table records a file of at most
    10 MiB, and its [is_pdf] column is true exactly when the recorded
    file type is [application/pdf] or the recorded file name ends in
    [.pdf], whatever was uploaded or rejected before. *)
Theorem persisted_size_and_pdf_flag (env : Env) (evs : list UiEvent) :
  Forall (fun row =>
            file_size row <= 10485760
            /\ is_pdf row
               = (string_eqb (file_type row) (lit "application/pdf")
                  || endsWith (toLowerCase (file_name row)) (lit ".pdf")))
         (fst (run env evs initial_world)).
Proof.
  eapply Forall_impl;
    [|apply run_rows_selected, initial_world_selection].
  intros row (s & file & -> & Hsize & Hpdf & _). simpl.
  split; [exact Hsize|exact Hpdf].
Qed.

(** The persisted method tag is decided by the recorded file name and
    type alone, unless extraction failed: every row carries either
    "failed" or the tag of the branch that the name and type select
    (PDF before Word before plain text before unknown). *)
Theorem persisted_tag_follows_declared_type (env : Env)
    (evs : list UiEvent) :
  Forall (fun row =>
            text_extraction_method row = lit "failed"
            \/ text_extraction_method row
               = dispatch_tag
                   (mkFile (file_name row) (file_type row) (file_size row) 0))
         (fst (run env evs initial_world)).
Proof.
  eapply Forall_impl;
    [|apply run_rows_selected, initial_world_selection].
  intros row (s & file & -> & _ & _ & Htag). simpl.
  destruct Htag as [Htag|Htag]; rewrite Htag.
  - right. unfold or_else. rewrite dispatch_tag_truthy.
    destruct file; reflexivity.
  - left. reflexivity.
Qed.

(** A successful submission clears the selection: the file, the resume
    text and the cover letter are reset while the method tag and the PDF
    flag keep their values, and a further submit click inserts nothing
    until a new file is chosen. *)
Theorem submit_clears_selection (checks_pass : bool) (w : World)
    (row : ApplicationRow) (w' : World) :
  handleSubmit checks_pass true w = (Some row, w') ->
  resumeFile (state w') = None
  /\ resumeText (state w') = []
  /\ coverLetter (state w') = []
  /\ extractionMethod (state w') = extractionMethod (state w)
  /\ isPdfFile (state w') = isPdfFile (state w)
  /\ (forall c i, handleSubmit c i w' = (None, w')).
Proof.
  unfold handleSubmit at 1.
  destruct (resumeFile (state w)) as [file|]; [|discriminate].
  destruct checks_pass; [|discriminate].
  simpl. intros H. injection H as _ <-. simpl.
  repeat split.
Qed.

Lemma submit_clears_selection_witness :
  let w := snd (handleFileChange (sample_env jane_doe [] http_500)
                  (Some text_file) initial_world) in
  let w' := snd (handleSubmit true true w) in
  resumeFile (state w') = None
  /\ resumeText (state w') = []
  /\ coverLetter (state w') = []
  /\ extractionMethod (state w') = extractionMethod (state w)
  /\ isPdfFile (state w') = isPdfFile (state w)
  /\ (forall c i, handleSubmit c i w' = (None, w')).
Proof.
  intros w w'.
  refine (submit_clears_selection true w _ w' _).
  vm_compute. reflexivity.
Defined.

(** ** From the upload to the review page *)

Lemma applicationRow_tag_truthy (s : State) (file : File) :
  truthy (text_extraction_method (applicationRow s file)) = true.
Proof.
  simpl. unfold or_else.
  destruct (extractionMethod s) as [|c r]; reflexivity.
Qed.

(** A successful extraction is persisted as it is: when the extractor
    chosen for a file returns a text, the row handed to the
    [applications] table on submit carries exactly that text (sanitizing
    it again changes nothing), the tag of the file's branch, and the
    file's PDF flag, name, size and type. *)
Theorem extracted_text_is_persisted (env : Env) (file : File) (w : World)
    (text : jsstring) (w1 : World) (insert_ok : bool) :
  size file <= 10 * 1024 * 1024 ->
  extractByType env file (selected file w) = (Ok text, w1) ->
  exists w' row w'',
    handleFileChange env (Some file) w = (Ok tt, w')
    /\ handleSubmit true insert_ok w' = (Some row, w'')
    /\ resume_txt row = text
    /\ text_extraction_method row = dispatch_tag file
    /\ is_pdf row = isPdf file
    /\ file_name row = name file
    /\ file_size row = size file
    /\ file_type row = type file.
Proof.
  intros Hsize Hx.
  destruct (handleFileChange_outcome env file w Hsize)
    as (w' & H & Hf & Hp & _ & Hcase).
  destruct Hcase as [(t & w2 & Hx' & Hm & Ht)|(e & w2 & Hx' & _)];
    [|congruence].
  rewrite Hx in Hx'. injection Hx' as <- _.
  pose proof (returns_extractByType env file _ _ _ Hx) as Hsan.
  exists w', (applicationRow (state w') file).
  assert (Hrow : resume_txt (applicationRow (state w') file) = text
                 /\ text_extraction_method (applicationRow (state w') file)
                    = dispatch_tag file
                 /\ is_pdf (applicationRow (state w') file) = isPdf file).
  { simpl. rewrite Ht, Hm, Hp. split; [now apply sanitized_fixed|].
    split; [|reflexivity]. unfold or_else. now rewrite dispatch_tag_truthy. }
  unfold handleSubmit. rewrite Hf.
  destruct insert_ok; eexists; (split; [exact H|]);
    (split; [reflexivity|]); repeat split; apply Hrow.
Qed.

Lemma extracted_text_is_persisted_witness :
  exists w' row w'',
    handleFileChange (sample_env jane_doe [] http_500) (Some text_file)
      initial_world = (Ok tt, w')
    /\ handleSubmit true true w' = (Some row, w'')
    /\ resume_txt row = lit "Jane DoeSoftware Engineer"
    /\ text_extraction_method row = dispatch_tag text_file
    /\ is_pdf row = isPdf text_file
    /\ file_name row = name text_file
    /\ file_size row = size text_file
    /\ file_type row = type text_file.
Proof.
  refine (extracted_text_is_persisted (sample_env jane_doe [] http_500)
            text_file initial_world (lit "Jane DoeSoftware Engineer")
            _ true _ _).
  - simpl. lia.
  - vm_compute. reflexivity.
Defined.

Lemma collapse_length_flag (s : jsstring) :
  (List.length (replace_runs_from is_space [SPACE] true s)
   <= List.length (replace_runs_from is_space [SPACE] false s))%nat.
Proof.
  destruct s as [|c r]; simpl; [lia|].
  destruct (is_space c); simpl; lia.
Qed.

Lemma collapse_length_suffix (a l : jsstring) :
  forall b,
    (List.length (replace_runs_from is_space [SPACE] true l)
     <= List.length (replace_runs_from is_space [SPACE] b (a ++ l)))%nat.
Proof.
  induction a as [|c r IH]; intros b.
  - simpl. destruct b; [lia|apply collapse_length_flag].
  - simpl. destruct (is_space c).
    + destruct b; simpl.
      * apply IH.
      * specialize (IH true). lia.
    + simpl. specialize (IH false). lia.
Qed.

Lemma sanitized_placeholder_length (env : Env) (file : File) :
  100 < len (sanitizeText (fallbackText env file)).
Proof.
  rewrite sanitizeText_pipeline, tab_replace_after_strip.
  unfold fallbackText. fold placeholder_note.
  repeat rewrite app_assoc.
  rewrite control_strip_app.
  replace (replace_each is_control [] placeholder_note)
    with placeholder_note by (vm_compute; reflexivity).
  unfold substring0, replace_runs, len. rewrite length_firstn.
  match goal with
  | |- context [replace_runs_from _ _ false (?a ++ placeholder_note)] =>
      pose proof (collapse_length_suffix a placeholder_note false) as H
  end.
  replace (List.length
             (replace_runs_from is_space [SPACE] true placeholder_note))
    with 162%nat in H by (vm_compute; reflexivity).
  lia.
Qed.

Lemma or_opt_truthy (t : jsstring) :
  Review.truthy_string (Review.or_opt (Some t) None) = truthy t.
Proof. destruct t; reflexivity. Qed.

Lemma or_opt_default (t : jsstring) :
  Review.or_default (Review.or_opt (Some t) None) [] = t.
Proof. destruct t; reflexivity. Qed.

Lemma checkResumeAvailability_long_text (s : State) (file : File)
    (now : Z) :
  100 < len (resume_txt (applicationRow s file)) ->
  let info := Review.checkResumeAvailability
                (storedApplication now (applicationRow s file)) in
  Review.available info = true
  /\ Review.text info = Some (resume_txt (applicationRow s file))
  /\ Review.extraction_method info
     = Some (text_extraction_method (applicationRow s file)).
Proof.
  intros Hlen info.
  pose proof (applicationRow_tag_truthy s file) as Htag.
  unfold info. clear info.
  remember (applicationRow s file) as row eqn:Hrow. clear Hrow.
  unfold Review.checkResumeAvailability, storedApplication.
  cbn [Review.resume_txt Review.longer_than].
  assert (Ht : truthy (resume_txt row) = true).
  { destruct (resume_txt row);
      [unfold len in Hlen; simpl in Hlen; lia|reflexivity]. }
  rewrite Ht, Z.gtb_ltb.
  replace (100 <? len (resume_txt row)) with true
    by (symmetry; now apply Z.ltb_lt).
  cbn [andb Review.available Review.text Review.extraction_method
       Review.text_extraction_method Review.or_default].
  rewrite Htag. auto.
Qed.

(** What the review page makes of a row of this page.  The resume is
    reported available exactly when the stored text is not empty, and the
    stored text is then the text shown; the extraction method is reported
    only when the text has more than 100 code units, and is then the
    row's tag. *)
Theorem review_of_persisted_row (s : State) (file : File) (now : Z) :
  let row := applicationRow s file in
  let info := Review.checkResumeAvailability (storedApplication now row) in
  Review.available info = truthy (resume_txt row)
  /\ (truthy (resume_txt row) = true ->
        Review.text info = Some (resume_txt row))
  /\ Review.extraction_method info
     = (if 100 <? len (resume_txt row)
        then Some (text_extraction_method row) else None).
Proof.
  intros row info.
  pose proof (applicationRow_tag_truthy s file) as Htag. fold row in Htag.
  assert (Hst : storage_status row = lit "text_only") by reflexivity.
  unfold info. clear info. clearbody row.
  unfold Review.checkResumeAvailability, storedApplication.
  cbn [Review.resume_txt Review.resume_text Review.is_pdf
       Review.text_extraction_method Review.storage_status
       Review.file_name Review.file_size Review.file_type Review.resume
       Review.resume_bucket Review.longer_than Review.truthy_bool].
  rewrite Hst.
  replace (Review.is_string (Some (lit "text_only")) (lit "text_extracted"))
    with false by (vm_compute; reflexivity).
  replace (Review.is_string (Some (lit "text_only")) (lit "text_only"))
    with true by (vm_compute; reflexivity).
  replace (Review.is_string (Some (lit "text_only")) (lit "pending_upload"))
    with false by (vm_compute; reflexivity).
  rewrite Z.gtb_ltb, !or_opt_truthy, !or_opt_default.
  destruct (truthy (resume_txt row)) eqn:Ht.
  - destruct (100 <? len (resume_txt row)) eqn:Hl.
    + cbn [andb Review.available Review.text Review.extraction_method].
      unfold Review.or_default. rewrite Htag. auto.
    + cbn [andb orb]. rewrite ?andb_true_r.
      destruct (is_pdf row);
        cbn [Review.available Review.text Review.extraction_method]; auto.
  - assert (Hl : (100 <? len (resume_txt row)) = false).
    { destruct (resume_txt row); [reflexivity|discriminate]. }
    rewrite Hl. cbn [andb orb]. rewrite ?andb_false_r.
    repeat match goal with
           | |- context [if ?c then _ else _] => destruct c
           end;
      cbn [Review.available Review.extraction_method];
      repeat split; discriminate.
Qed.

(** A failed extraction reaches the reviewer as a resume.  When the
    extractor chosen for a file throws and the application is submitted,
    the stored text is the sanitized placeholder, which is always longer
    than 100 code units; the review page therefore reports the resume as
    available, with the placeholder as its text and "failed" as its
    extraction method. *)
Theorem failed_upload_is_reviewed_as_available (env : Env) (file : File)
    (w : World) (e : JsError) (w1 : World) (insert_ok : bool) (now : Z) :
  size file <= 10 * 1024 * 1024 ->
  extractByType env file (selected file w) = (Throw e, w1) ->
  exists w' row w'',
    handleFileChange env (Some file) w = (Ok tt, w')
    /\ handleSubmit true insert_ok w' = (Some row, w'')
    /\ resume_txt row = sanitizeText (fallbackText env file)
    /\ 100 < len (resume_txt row)
    /\ text_extraction_method row = lit "failed"
    /\ Review.available
         (Review.checkResumeAvailability (storedApplication now row)) = true
    /\ Review.text
         (Review.checkResumeAvailability (storedApplication now row))
       = Some (resume_txt row)
    /\ Review.extraction_method
         (Review.checkResumeAvailability (storedApplication now row))
       = Some (lit "failed").
Proof.
  intros Hsize Hx.
  destruct (handleFileChange_outcome env file w Hsize)
    as (w' & H & Hf & Hp & _ & Hcase).
  destruct Hcase as [(t & w2 & Hx' & _)|(e' & w2 & _ & Hm & Ht)];
    [congruence|].
  pose proof (sanitized_placeholder_length env file) as Hlen.
  assert (Htxt : resume_txt (applicationRow (state w') file)
                 = sanitizeText (fallbackText env file))
    by (simpl; now rewrite Ht).
  assert (Htag : text_extraction_method (applicationRow (state w') file)
                 = lit "failed")
    by (simpl; now rewrite Hm).
  rewrite <- Htxt in Hlen.
  destruct (checkResumeAvailability_long_text (state w') file now Hlen)
    as (Ha & Hb & Hc).
  rewrite Htag in Hc.
  exists w', (applicationRow (state w') file).
  unfold handleSubmit. rewrite Hf.
  destruct insert_ok; eexists; (split; [exact H|]);
    (split; [reflexivity|]); repeat split; assumption.
Qed.

Lemma failed_upload_is_reviewed_as_available_witness :
  exists w' row w'',
    handleFileChange (sample_env [] [] http_500) (Some corrupt_docx)
      initial_world = (Ok tt, w')
    /\ handleSubmit true true w' = (Some row, w'')
    /\ resume_txt row
       = sanitizeText (fallbackText (sample_env [] [] http_500) corrupt_docx)
    /\ 100 < len (resume_txt row)
    /\ text_extraction_method row = lit "failed"
    /\ Review.available
         (Review.checkResumeAvailability
            (storedApplication 1736933400000 row)) = true
    /\ Review.text
         (Review.checkResumeAvailability
            (storedApplication 1736933400000 row))
       = Some (resume_txt row)
    /\ Review.extraction_method
         (Review.checkResumeAvailability
            (storedApplication 1736933400000 row))
       = Some (lit "failed").
Proof.
  refine (failed_upload_is_reviewed_as_available
            (sample_env [] [] http_500) corrupt_docx initial_world
            _ _ true 1736933400000 _ _).
  - simpl. lia.
  - vm_compute. reflexivity.
Defined.

Lemma review_of_persisted_row_witness :
  Review.text
    (Review.checkResumeAvailability
       (storedApplication 1736933400000
          (applicationRow
             (state (snd (handleFileChange (sample_env jane_doe [] http_500)
                            (Some text_file) initial_world)))
             text_file)))
  = Some (lit "Jane DoeSoftware Engineer").
Proof.
  apply (proj1 (proj2 (review_of_persisted_row
                         (state (snd (handleFileChange
                                        (sample_env jane_doe [] http_500)
                                        (Some text_file) initial_world)))
                         text_file 1736933400000))).
  vm_compute. reflexivity.
Defined.

(** ** The guest form *)

Lemma email_local_split (s : jsstring) :
  s = fst (email_local s) ++ snd (email_local s)
  /\ forallb is_email_unit (fst (email_local s)) = true.
Proof.
  induction s as [|c r [IH1 IH2]]; [split; reflexivity|].
  simpl. destruct (is_email_unit c) eqn:Hc; [|split; reflexivity].
  destruct (email_local r) as [l rest]. simpl in *.
  rewrite Hc, IH2. split; [now rewrite <- IH1|reflexivity].
Qed.

Lemma email_local_app (l r : jsstring) (c : Z) :
  forallb is_email_unit l = true ->
  is_email_unit c = false ->
  email_local (l ++ c :: r) = (l, c :: r).
Proof.
  intros Hl Hc. induction l as [|x l IH]; simpl.
  - now rewrite Hc.
  - simpl in Hl. apply andb_true_iff in Hl. destruct Hl as [Hx Hl].
    rewrite Hx, (IH Hl). reflexivity.
Qed.

Lemma inner_full_stop_iff (d : jsstring) :
  inner_full_stop d = true <->
  exists d1 t, d = d1 ++ FULL_STOP :: t /\ d1 <> [] /\ t <> [].
Proof.
  unfold inner_full_stop. split.
  - intros H. destruct d as [|c d']; [discriminate|]. simpl tl in H.
    apply existsb_exists in H. destruct H as (x & Hin & Hx).
    apply Z.eqb_eq in Hx. subst x.
    assert (Hne : d' <> []) by (intros ->; exact Hin).
    apply in_split in Hin. destruct Hin as (a & b & Hab).
    rewrite (app_removelast_last 0 Hne), Hab.
    exists (c :: a), (b ++ [last d' 0]).
    split; [simpl; now rewrite <- app_assoc|].
    split; [discriminate|]. intros E. now apply app_eq_nil in E as [_ E].
  - intros (d1 & t & -> & H1 & Ht).
    destruct d1 as [|c a]; [contradiction|]. simpl tl.
    destruct t as [|x t']; [contradiction|].
    rewrite removelast_app by discriminate.
    apply existsb_exists. exists FULL_STOP.
    split; [|reflexivity].
    apply in_or_app. right. simpl. now left.
Qed.

Lemma emailRegex_test_sound (s : jsstring) :
  emailRegex_test s = true -> emailRegex_matches s.
Proof.
  unfold emailRegex_test, emailRegex_matches. intros H.
  destruct (email_local_split s) as [Hs Hl].
  destruct (email_local s) as [l rest]. simpl in Hs, Hl.
  destruct rest as [|c d]; [discriminate|].
  apply andb_true_iff in H. destruct H as [H Hdot].
  apply andb_true_iff in H. destruct H as [H Hd].
  apply andb_true_iff in H. destruct H as [Hc Hne].
  apply Z.eqb_eq in Hc. subst c.
  apply inner_full_stop_iff in Hdot.
  destruct Hdot as (d1 & t & -> & Hd1 & Ht).
  rewrite forallb_app in Hd. apply andb_true_iff in Hd.
  destruct Hd as [Hu1 Hut]. simpl in Hut.
  exists l, d1, t. repeat split; try assumption.
  intros ->. discriminate.
Qed.

(** The executable email test decides the pattern
    [/^[^\s@]+@[^\s@]+\.[^\s@]+$/]: it accepts a string exactly when the
    string is a local part, an at sign, a domain part, a full stop and a
    last part, the three parts non-empty and free of whitespace and at
    signs. *)
Theorem emailRegex_test_decides_pattern (s : jsstring) :
  emailRegex_test s = true <-> emailRegex_matches s.
Proof.
  split; [apply emailRegex_test_sound|].
  unfold emailRegex_test, emailRegex_matches.
  intros (l & d & t & -> & Hl & Hd & Ht & Ul & Ud & Ut).
  rewrite (email_local_app l (d ++ FULL_STOP :: t) AT_SIGN Ul eq_refl).
  rewrite Z.eqb_refl. simpl andb.
  destruct l as [|x l']; [contradiction|]. simpl truthy.
  rewrite forallb_app, Ud. simpl. rewrite Ut. simpl.
  apply inner_full_stop_iff. now exists d, t.
Qed.

Lemma emailRegex_test_decides_pattern_witness :
  emailRegex_matches (lit "jane.doe@example.com").
Proof.
  apply (proj1 (emailRegex_test_decides_pattern (lit "jane.doe@example.com"))).
  vm_compute. reflexivity.
Defined.

Lemma email_units_plain (l : jsstring) :
  forallb is_email_unit l = true ->
  count_occ Z.eq_dec l AT_SIGN = 0%nat
  /\ Forall (fun c => is_space c = false) l.
Proof.
  induction l as [|c r IH]; intros H; [split; [reflexivity|constructor]|].
  simpl in H. apply andb_true_iff in H. destruct H as [Hc Hr].
  destruct (IH Hr) as [IH1 IH2].
  unfold is_email_unit in Hc. apply andb_true_iff in Hc.
  destruct Hc as [Hs Ha].
  apply negb_true_iff in Hs. apply negb_true_iff in Ha.
  apply Z.eqb_neq in Ha.
  split; [|constructor; assumption].
  simpl. destruct (Z.eq_dec c AT_SIGN); [contradiction|exact IH1].
Qed.

Lemma trimStart_no_space (s : jsstring) :
  Forall (fun c => is_space c = false) s -> trimStart s = s.
Proof.
  intros H. destruct H as [|c r Hc _]; [reflexivity|].
  simpl. now rewrite Hc.
Qed.

Lemma trim_no_space (s : jsstring) :
  Forall (fun c => is_space c = false) s -> trim s = s.
Proof.
  intros H. unfold trim.
  rewrite (trimStart_no_space s H).
  rewrite trimStart_no_space by (now apply Forall_rev).
  apply rev_involutive.
Qed.

Lemma email_match_plain (s : jsstring) :
  emailRegex_matches s ->
  count_occ Z.eq_dec s AT_SIGN = 1%nat
  /\ Forall (fun c => is_space c = false) s
  /\ s <> [].
Proof.
  intros (l & d & t & -> & Hl & _ & _ & Ul & Ud & Ut).
  destruct (email_units_plain l Ul) as [Cl Sl].
  destruct (email_units_plain d Ud) as [Cd Sd].
  destruct (email_units_plain t Ut) as [Ct St].
  split; [|split].
  - rewrite count_occ_app. simpl.
    destruct (Z.eq_dec AT_SIGN AT_SIGN) as [_|N]; [|contradiction].
    rewrite count_occ_app. simpl.
    destruct (Z.eq_dec FULL_STOP AT_SIGN) as [E|_]; [discriminate|].
    lia.
  - apply Forall_app. split; [exact Sl|].
    constructor; [reflexivity|].
    apply Forall_app. split; [exact Sd|].
    constructor; [reflexivity|exact St].
  - destruct l; [contradiction|discriminate].
Qed.

(** An email address that passes the guest form's test contains exactly
    one at sign and no whitespace at all, so trimming it changes
    nothing. *)
Theorem accepted_email_shape (s : jsstring) :
  emailRegex_test s = true ->
  count_occ Z.eq_dec s AT_SIGN = 1%nat
  /\ Forall (fun c => is_space c = false) s
  /\ trim s = s.
Proof.
  intros H. apply emailRegex_test_sound in H.
  destruct (email_match_plain s H) as (Hc & Hs & _).
  split; [exact Hc|]. split; [exact Hs|]. now apply trim_no_space.
Qed.

Lemma accepted_email_shape_witness :
  count_occ Z.eq_dec (lit "jane.doe@example.com") AT_SIGN = 1%nat
  /\ Forall (fun c => is_space c = false) (lit "jane.doe@example.com")
  /\ trim (lit "jane.doe@example.com") = lit "jane.doe@example.com".
Proof.
  apply (accepted_email_shape (lit "jane.doe@example.com")).
  vm_compute. reflexivity.
Defined.

(** The guest form goes on to the insert exactly when the full name has a
    character that is not whitespace and the email passes the pattern
    test; the separate "enter your email" check never decides, since an
    email that passes the test is not blank.  A logged-in user's form is
    not checked. *)
Theorem validateForm_passes (formData : FormData) :
  (validateForm false formData = None <->
   truthy (trim (fullName formData)) = true
   /\ emailRegex_test (email formData) = true)
  /\ validateForm true formData = None.
Proof.
  split; [|reflexivity].
  unfold validateForm. simpl negb at 1. cbv iota.
  destruct (truthy (trim (fullName formData))); simpl.
  - destruct (emailRegex_test (email formData)) eqn:He.
    + apply emailRegex_test_sound in He.
      destruct (email_match_plain _ He) as (_ & Hs & Hne).
      rewrite (trim_no_space _ Hs).
      destruct (email formData); [contradiction|]. simpl. tauto.
    + destruct (truthy (trim (email formData))); simpl;
        split; try discriminate; intros [_ H]; discriminate.
  - split; [discriminate|]. intros [H _]. discriminate.
Qed.

Lemma validateForm_passes_witness :
  validateForm false guest_form = None.
Proof.
  apply (proj2 (proj1 (validateForm_passes guest_form))).
  split; vm_compute; reflexivity.
Defined.

Lemma digits_no_space (d : Decimal.uint) :
  Forall (fun c => is_space c = false) (digits_of_uint d).
Proof.
  induction d; simpl; constructor; try reflexivity; assumption.
Qed.

Lemma number_to_string_no_space (n : Z) :
  Forall (fun c => is_space c = false) (number_to_string n).
Proof.
  destruct n as [|p|p]; simpl.
  - repeat constructor.
  - apply digits_no_space.
  - constructor; [reflexivity|apply digits_no_space].
Qed.

Lemma replace_runs_removes (p : Z -> bool) (rep s : jsstring) :
  Forall (fun c => p c = false) rep ->
  forall b, Forall (fun c => p c = false) (replace_runs_from p rep b s).
Proof.
  intros Hrep.
  induction s as [|c r IH]; intros b; simpl; [constructor|].
  destruct (p c) eqn:Hc.
  - destruct b; [apply IH|].
    apply Forall_app. split; [exact Hrep|apply IH].
  - constructor; [exact Hc|apply IH].
Qed.

(** The reference id stored in the [resume] column never contains
    whitespace, whatever the file name: every run of whitespace in the
    name becomes one underscore. *)
Theorem referenceId_has_no_whitespace (now : Z) (fileName : jsstring) :
  Forall (fun c => is_space c = false) (referenceId now fileName).
Proof.
  unfold referenceId.
  apply Forall_app. split; [repeat constructor|].
  apply Forall_app. split; [apply number_to_string_no_space|].
  apply Forall_app. split; [repeat constructor|].
  apply replace_runs_removes. repeat constructor.
Qed.

(** ** The upload handler as a whole *)

(** The upload handler never raises: for every file (or none), every
    state of the page and every behaviour of the browser's services, of
    the OCR engine, of the Word converter and of the model endpoint,
    [handleFileChange] returns normally. *)
Theorem upload_never_raises (env : Env) (files0 : option File) (w : World) :
  fst (handleFileChange env files0 w) = Ok tt.
Proof.
  destruct files0 as [file|]; [|reflexivity].
  destruct (Z.le_gt_cases (size file) (10 * 1024 * 1024)) as [Hle|Hgt].
  - rewrite (handleFileChange_unfold env file w Hle).
    destruct (extractByType env file (selected file w)) as [[text|e] w1];
      reflexivity.
  - unfold handleFileChange.
    replace (size file >? 10 * 1024 * 1024) with true; [reflexivity|].
    symmetry. rewrite Z.gtb_ltb. now apply Z.ltb_lt.
Qed.

(** ** The persisted method tag *)

Lemma unrecognized_upload (env : Env) (file : File) (w : World) :
  size file <= 10 * 1024 * 1024 ->
  isPdf file = false ->
  isWordDoc file = false ->
  string_eqb (type file) (lit "text/plain")
  || endsWith (name file) (lit ".txt") = false ->
  exists w',
    handleFileChange env (Some file) w = (Ok tt, w')
    /\ resumeFile (state w') = Some file
    /\ extractionMethod (state w')
       = match readAsText env (List.length (trace w)) file with
         | Ok raw =>
             if startsWith raw (lit "%PDF-") then lit "failed"
             else lit "unknown_file"
         | Throw _ => lit "failed"
         end.
Proof.
  intros Hsize Hpdf Hword Htxt.
  rewrite (handleFileChange_unfold env file w Hsize).
  unfold extractByType, selected. rewrite Hpdf, Hword, Htxt.
  unfold bind, setIsPdfFile, setResumeFile, setExtractionMethod,
    setResumeText, modify.
  norm_world.
  rewrite extractTextFromTextFile_cases. norm_world.
  destruct (readAsText env (List.length (trace w)) file) as [raw|e].
  - destruct (startsWith raw (lit "%PDF-"));
      eexists; (split; [reflexivity|]); norm_world; split; reflexivity.
  - eexists. split; [reflexivity|]. norm_world. split; reflexivity.
Qed.

(** C9, as the code has it.  In every run of the page, every row handed
    to the [applications] table carries one of six method tags: the five
    the specification lists, or "unknown_file".  A file of an
    unrecognized type (not a PDF, not a Word document, neither of type
    [text/plain] nor named [.txt]) goes through the plain-text reader and
    is persisted with the tag "unknown_file" when the read gives a text
    that does not start with the PDF signature, and with the tag "failed"
    when the read throws or reports that signature. *)
Theorem persisted_method_tag_six_values :
  (forall env evs,
     Forall (fun row =>
               In (text_extraction_method row)
                  (spec_method_tags ++ [lit "unknown_file"]))
            (fst (run env evs initial_world)))
  /\ (forall env file w insert_ok,
        size file <= 10 * 1024 * 1024 ->
        isPdf file = false ->
        isWordDoc file = false ->
        string_eqb (type file) (lit "text/plain")
        || endsWith (name file) (lit ".txt") = false ->
        exists w' row w'',
          handleFileChange env (Some file) w = (Ok tt, w')
          /\ handleSubmit true insert_ok w' = (Some row, w'')
          /\ text_extraction_method row
             = match readAsText env (List.length (trace w)) file with
               | Ok raw =>
                   if startsWith raw (lit "%PDF-") then lit "failed"
                   else lit "unknown_file"
               | Throw _ => lit "failed"
               end).
Proof.
  split.
  - intros env evs.
    eapply Forall_impl;
      [|apply run_rows_tagged, initial_world_invariant].
    intros row H. simpl in H. unfold spec_method_tags.
    apply in_or_app. simpl.
    destruct H as [H|[H|[H|[H|[H|[]]]]]]; rewrite <- H; tauto.
  - intros env file w insert_ok Hsize Hpdf Hword Htxt.
    destruct (unrecognized_upload env file w Hsize Hpdf Hword Htxt)
      as (w' & H & Hf & Hm).
    exists w', (applicationRow (state w') file).
    assert (Htag : text_extraction_method (applicationRow (state w') file)
                   = extractionMethod (state w')).
    { simpl. rewrite Hm.
      destruct (readAsText env (List.length (trace w)) file) as [raw|e];
        [destruct (startsWith raw (lit "%PDF-"))|]; reflexivity. }
    unfold handleSubmit. rewrite Hf.
    destruct insert_ok; eexists; (split; [exact H|]);
      (split; [reflexivity|]); rewrite Htag; exact Hm.
Qed.

(** A resume declared as [application/rtf] is persisted as
    "unknown_file". *)
Lemma persisted_method_tag_six_values_witness :
  exists w' row w'',
    handleFileChange (sample_env jane_doe [] http_500) (Some rtf_file)
      initial_world = (Ok tt, w')
    /\ handleSubmit true true w' = (Some row, w'')
    /\ text_extraction_method row = lit "unknown_file".
Proof.
  refine (proj2 persisted_method_tag_six_values
            (sample_env jane_doe [] http_500) rtf_file initial_world true
            _ _ _ _).
  - simpl. lia.
  - vm_compute. reflexivity.
  - vm_compute. reflexivity.
  - vm_compute. reflexivity.
Defined.
